(** * MTA-to-DCH: price-band classification, payload construction and
      chunked upload

    A shallow embedding of [main.py] (the hourly AWS Lambda job),
    [backfill.py] (the historical batch job) and the constants of
    [config.py], followed by the properties the design document states
    about them.

    Conventions of the embedding:
    - Python [int] is [Z]; Python [float] is the primitive binary64 [float];
      Python [str] is [string].
    - the nested dict/list literals of the upload payload are values of
      [pyval]; a dict keeps its items in insertion order, as CPython does.
    - an exception is a value of [exn] and a call that may raise returns a
      [result]; every exception modelled here derives from [Exception].
    - the network and the two database queries are the environment of the
      program: they are variables of the sections that need them.
    - what the program does to the outside world is recorded in a trace of
      [event]s: every [requests.post], and the log records written by the
      two entry points themselves. *)

From Stdlib Require Import ZArith List String Ascii Bool Floats Lia.
From Stdlib Require Import DecimalString.
Import ListNotations.
Open Scope string_scope.
Open Scope Z_scope.

(** ** Python values, exceptions and results *)

#[warnings="-register-all"]
Inductive pyval : Type :=
| PyInt (n : Z)
| PyStr (s : string)
| PyList (items : list pyval)
| PyDict (entries : list (string * pyval)).

Inductive exn : Type :=
| ValueError (msg : string)
| KeyError (key : string)
| AttributeError (msg : string)
| RequestException (detail : string)
| HTTPError (status_code : Z) (reason : string)
| OperationalError (detail : string).

Inductive result (A : Type) : Type :=
| Ok (value : A)
| Raise (e : exn).

Arguments Ok {A} value.
Arguments Raise {A} e.

Definition bind {A B : Type} (r : result A) (k : A -> result B) : result B :=
  match r with
  | Ok a => k a
  | Raise e => Raise e
  end.

Declare Scope py_scope.
Delimit Scope py_scope with py.
Notation "x <- r ;; k" := (bind r (fun x => k))
  (at level 61, r at next level, right associativity) : py_scope.
Open Scope py_scope.

(** [d[key]] on a dict: the first entry under [key]; anything else raises. *)
Fixpoint assoc_get (key : string) (entries : list (string * pyval)) : option pyval :=
  match entries with
  | [] => None
  | (k, v) :: rest => if String.eqb k key then Some v else assoc_get key rest
  end.

Definition getitem (d : pyval) (key : string) : result pyval :=
  match d with
  | PyDict entries =>
      match assoc_get key entries with
      | Some v => Ok v
      | None => Raise (KeyError key)
      end
  | _ => Raise (KeyError key)
  end.

(** [d[key] = v] on an existing key keeps the key's position. *)
Fixpoint assoc_set (key : string) (v : pyval) (entries : list (string * pyval))
  : list (string * pyval) :=
  match entries with
  | [] => [(key, v)]
  | (k, w) :: rest =>
      if String.eqb k key then (k, v) :: rest else (k, w) :: assoc_set key v rest
  end.

(** [d[key].append(x)]: the list stored under [key] is mutated in place, so
    the dict that holds it sees the longer list. *)
Definition getitem_append (d : pyval) (key : string) (x : pyval) : result pyval :=
  target <- getitem d key ;;
  match d, target with
  | PyDict entries, PyList items =>
      Ok (PyDict (assoc_set key (PyList (items ++ [x])) entries))
  | _, _ => Raise (AttributeError "append")
  end.

(** ** [datetime] *)

(** [tzinfo] is [None] for a naive datetime and [Some off] for an aware one,
    [off] being [utcoffset()] in seconds east of UTC. *)
Record datetime : Type := mk_datetime {
  year : Z;
  month : Z;
  day : Z;
  hour : Z;
  minute : Z;
  second : Z;
  microsecond : Z;
  tzinfo : option Z
}.

Definition is_leap (y : Z) : bool :=
  (y mod 4 =? 0) && negb (y mod 100 =? 0) || (y mod 400 =? 0).

Definition days_in_month (y m : Z) : Z :=
  if m =? 2 then (if is_leap y then 29 else 28)
  else if (m =? 4) || (m =? 6) || (m =? 9) || (m =? 11) then 30
  else 31.

(** The ranges the [datetime] constructor enforces. *)
Definition valid_datetime (d : datetime) : bool :=
  (1 <=? year d) && (year d <=? 9999) &&
  (1 <=? month d) && (month d <=? 12) &&
  (1 <=? day d) && (day d <=? days_in_month (year d) (month d)) &&
  (0 <=? hour d) && (hour d <? 24) &&
  (0 <=? minute d) && (minute d <? 60) &&
  (0 <=? second d) && (second d <? 60) &&
  (0 <=? microsecond d) && (microsecond d <? 1000000) &&
  match tzinfo d with
  | None => true
  | Some off => (-86400 <? off) && (off <? 86400)
  end.

Definition digit (n : Z) : ascii := ascii_of_nat (Z.to_nat (48 + n mod 10)).

Definition pad2 (n : Z) : string :=
  String (digit (n / 10)) (String (digit n) EmptyString).

Definition pad4 (n : Z) : string :=
  String (digit (n / 1000)) (String (digit (n / 100)) (pad2 n)).

(** [%Y]: the year in decimal. The C library of the platform writes it,
    and glibc does not pad: four digits from 1000 on, fewer below. *)
Definition year_text (y : Z) : string :=
  if y <? 1000 then NilZero.string_of_int (Z.to_int y) else pad4 y.

(** [d.strftime("%Y-%m-%dT%H:%M:%SZ")]: the six calendar and clock fields of
    [d] as they stand, then the letter Z of the format string. Neither
    [microsecond] nor [tzinfo] is read. *)
Definition strftime_dch (d : datetime) : string :=
  year_text (year d) ++ "-" ++ pad2 (month d) ++ "-" ++ pad2 (day d) ++ "T" ++
  pad2 (hour d) ++ ":" ++ pad2 (minute d) ++ ":" ++ pad2 (second d) ++ "Z".

(** ** [range] and slices *)

Fixpoint range_up (fuel : nat) (i stop step : Z) : list Z :=
  match fuel with
  | O => []
  | S fuel' => if i <? stop then i :: range_up fuel' (i + step) stop step else []
  end.

Fixpoint range_down (fuel : nat) (i stop step : Z) : list Z :=
  match fuel with
  | O => []
  | S fuel' => if stop <? i then i :: range_down fuel' (i + step) stop step else []
  end.

(** [list(range(start, stop, step))]. The fuel is the distance left to
    [stop], which a step of at least one in absolute value covers. *)
Definition py_range (start stop step : Z) : result (list Z) :=
  if step =? 0 then Raise (ValueError "range() arg 3 must not be zero")
  else if 0 <? step then Ok (range_up (Z.to_nat (stop - start)) start stop step)
  else Ok (range_down (Z.to_nat (start - stop)) start stop step).

(** [len(xs)] *)
Definition len {A : Type} (xs : list A) : Z := Z.of_nat (List.length xs).

(** A slice bound is clamped into [0, len], a negative one counting from the
    end. *)
Definition clamp_index (len i : Z) : Z :=
  if i <? 0 then Z.max (i + len) 0 else Z.min i len.

(** [items[lo:hi]] *)
Definition py_slice {A : Type} (items : list A) (lo hi : Z) : list A :=
  let lo' := clamp_index (len items) lo in
  let hi' := clamp_index (len items) hi in
  firstn (Z.to_nat (hi' - lo')) (skipn (Z.to_nat lo') items).

(** [enumerate(xs, start)] *)
Fixpoint enumerate {A : Type} (start : Z) (xs : list A) : list (Z * A) :=
  match xs with
  | [] => []
  | x :: rest => (start, x) :: enumerate (start + 1) rest
  end.

(** ** [config.py] *)

Definition DCH_UPLOAD_URL : string :=
  "https://dataclearinghouse.org/api/chronos/v1/observations/upload".
Definition DCH_DATA_POOL_ID : string := "evse_kerbside_wholesale_price_drf".
Definition DCH_POINT_ID : string := "wholesale_price_drf".

(** ** The [PriceSignal] rows *)

(** What [isinstance(settlementdate, datetime)] tells apart: a [datetime],
    or any other object, of which the program only ever takes [str()]. *)
Inductive column : Type :=
| IsDatetime (d : datetime)
| NotDatetime (text : string).

(** [rrp] holds [float(price_signal.rrp)]. *)
Record PriceSignal : Type := mk_PriceSignal {
  settlementdate : column;
  rrp : float;
  regionid : string
}.

(** ** [main.py] *)

Definition calculate_rrp_value (rrp : float) : Z :=
  if (rrp <? 500)%float then 0
  else if (rrp <? 1000)%float then 1
  else 2.

Section MainPy.

(** [datetime.fromisoformat]: a [datetime], or the exception it raises on
    a string it cannot read (a [ValueError] in CPython). *)
Variable fromisoformat : string -> result datetime.

(** The timestamp of one row, lines 63 to 66. *)
Definition row_timestamp (price_signal : PriceSignal) : result datetime :=
  match settlementdate price_signal with
  | IsDatetime d => Ok d
  | NotDatetime text => fromisoformat text
  end.

(** One turn of the loop over [price_signals]. *)
Definition add_observation (dch_payload : pyval) (price_signal : PriceSignal)
  : result pyval :=
  timestamp <- row_timestamp price_signal ;;
  let valid_dch_dt_string := strftime_dch timestamp in
  let rrp_value := calculate_rrp_value (rrp price_signal) in
  let observation :=
    PyDict [("t", PyStr valid_dch_dt_string);
            ("p", PyStr "0");
            ("n", PyInt rrp_value)] in
  getitem_append dch_payload "data" observation.

Fixpoint add_observations (dch_payload : pyval) (price_signals : list PriceSignal)
  : result pyval :=
  match price_signals with
  | [] => Ok dch_payload
  | price_signal :: rest =>
      dch_payload' <- add_observation dch_payload price_signal ;;
      add_observations dch_payload' rest
  end.

Definition composite_point_id : string :=
  "evse:" ++ DCH_DATA_POOL_ID ++ ":" ++ DCH_POINT_ID.

Definition construct_dch_payload (price_signals : list PriceSignal) : result pyval :=
  match price_signals with
  | [] => Ok (PyDict [("metadata", PyDict [("points", PyDict [])]);
                      ("data", PyList [])])
  | _ =>
      let dch_payload :=
        PyDict [("metadata", PyDict [("points", PyDict [("0", PyStr composite_point_id)])]);
                ("data", PyList [])] in
      add_observations dch_payload price_signals
  end.

End MainPy.

(** ** Effects: the trace and the [io] monad *)

(** What [requests.post] meets: a response, or no response at all. *)
Inductive http_outcome : Type :=
| Response (status_code : Z) (reason : string) (text : string)
| ConnectionFailure (detail : string).

(** One [requests.post], or one log record of an entry point, named after
    its level and its message:
    - [WarnNoSignalsLastHour], [ErrorProcessing]: [main.py], lines 151 and
      179;
    - [WarnNoSignals], [InfoProcessing], [InfoUploaded], [ErrorFailed],
      [InfoCompleted], [ErrorBackfill]: [backfill.py], lines 109, 128, 142,
      151, 160 and 170.
    The records carry the values the message is formatted from. *)
Inductive event : Type :=
| Post (url : string) (json : pyval)
| WarnNoSignalsLastHour
| ErrorProcessing (e : exn)
| WarnNoSignals
| InfoProcessing (batch_num total_batches size : Z)
| InfoUploaded (batch_num total_batches : Z) (status : option pyval)
| ErrorFailed (batch_num total_batches : Z) (e : exn)
| InfoCompleted (total successful failed : Z)
| ErrorBackfill (e : exn).

(** A computation reads the trace so far and returns its result with the
    trace extended. *)
Definition io (A : Type) : Type := list event -> result A * list event.

Definition ret {A : Type} (a : A) : io A := fun tr => (Ok a, tr).

Definition raise {A : Type} (e : exn) : io A := fun tr => (Raise e, tr).

Definition io_bind {A B : Type} (c : io A) (k : A -> io B) : io B :=
  fun tr =>
    match c tr with
    | (Ok a, tr') => k a tr'
    | (Raise e, tr') => (Raise e, tr')
    end.

Definition lift {A : Type} (r : result A) : io A := fun tr => (r, tr).

Definition emit (ev : event) : io unit := fun tr => (Ok tt, (tr ++ [ev])%list).

(** [try: body except <class> as e: handler(e)] *)
Definition try_except {A : Type} (body : io A) (caught : exn -> bool)
  (handler : exn -> io A) : io A :=
  fun tr =>
    match body tr with
    | (Ok a, tr') => (Ok a, tr')
    | (Raise e, tr') => if caught e then handler e tr' else (Raise e, tr')
    end.

Notation "x <~ c ;; k" := (io_bind c (fun x => k))
  (at level 61, c at next level, right associativity) : py_scope.
Notation "c ;;; k" := (io_bind c (fun _ => k))
  (at level 61, right associativity) : py_scope.

(** [except Exception]: every exception of the model. *)
Definition is_Exception (e : exn) : bool := true.

(** [except requests.exceptions.RequestException]: the class and its
    subclass [HTTPError]. *)
Definition is_RequestException (e : exn) : bool :=
  match e with
  | RequestException _ | HTTPError _ _ => true
  | _ => false
  end.

(** The payloads posted so far, oldest first. *)
Fixpoint posted (tr : list event) : list pyval :=
  match tr with
  | [] => []
  | Post _ json :: rest => json :: posted rest
  | _ :: rest => posted rest
  end.

(** [dict.get(key)] *)
Definition dict_get (d : pyval) (key : string) : option pyval :=
  match d with
  | PyDict entries => assoc_get key entries
  | _ => None
  end.

Definition decimal (n : Z) : string := NilZero.string_of_int (Z.to_int n).

(** [str(e)] *)
Definition exn_str (e : exn) : string :=
  match e with
  | ValueError msg => msg
  | KeyError key => "'" ++ key ++ "'"
  | AttributeError msg => msg
  | RequestException detail => detail
  | HTTPError status_code reason =>
      decimal status_code ++
      (if status_code <? 500 then " Client Error: " else " Server Error: ") ++
      reason ++ " for url: " ++ DCH_UPLOAD_URL
  | OperationalError detail => detail
  end.

Section Jobs.

Variable fromisoformat : string -> result datetime.

(** [json.dumps] *)
Variable json_dumps : pyval -> string.

(** The remote end: what [requests.post] meets, given the payloads posted
    before and the one posted now. *)
Variable network : list pyval -> pyval -> http_outcome.

(** The outcome of the two queries, by [region_id]. *)
Variable get_last_hour_price_signals : string -> result (list PriceSignal).
Variable get_all_price_signals : string -> result (list PriceSignal).

(** [requests.post(...)] then [response.raise_for_status()] *)
Definition post_and_check (payload : pyval) : io (Z * string) :=
  fun tr =>
    let tr' := (tr ++ [Post DCH_UPLOAD_URL payload])%list in
    match network (posted tr) payload with
    | ConnectionFailure detail => (Raise (RequestException detail), tr')
    | Response status_code reason text =>
        if (400 <=? status_code) && (status_code <? 600)
        then (Raise (HTTPError status_code reason), tr')
        else (Ok (status_code, text), tr')
    end.

Definition upload_to_dch (payload : pyval) : io pyval :=
  try_except
    (response <~ post_and_check payload ;;
     ret (PyDict [("statusCode", PyInt (fst response));
                  ("body", PyStr (snd response))]))
    is_RequestException
    (fun e => raise e).

Definition lambda_handler (event context : pyval) : io pyval :=
  try_except
    (price_signals <~ lift (get_last_hour_price_signals "NSW1") ;;
     match price_signals with
     | [] =>
         emit WarnNoSignalsLastHour ;;;
         ret (PyDict
                [("statusCode", PyInt 200);
                 ("body", PyStr (json_dumps (PyDict
                    [("message", PyStr "No price signals found for the last hour")])))])
     | _ =>
         dch_payload <~ lift (construct_dch_payload fromisoformat price_signals) ;;
         upload_result <~ upload_to_dch dch_payload ;;
         ret (PyDict
                [("statusCode", PyInt 200);
                 ("body", PyStr (json_dumps (PyDict
                    [("message",
                      PyStr "Successfully processed and uploaded price signals to DCH");
                     ("price_signals_processed", PyInt (len price_signals));
                     ("dch_response", upload_result)])))])
     end)
    is_Exception
    (fun e =>
       emit (ErrorProcessing e) ;;;
       ret (PyDict
              [("statusCode", PyInt 500);
               ("body", PyStr (json_dumps (PyDict
                  [("error", PyStr (exn_str e));
                   ("message", PyStr "Failed to process and upload price signals")])))])).

(** *** [backfill.py] *)

Fixpoint batch_loop {A : Type} (items : list A) (batch_size : Z)
  (indices : list Z) (batches : list (list A)) : list (list A) :=
  match indices with
  | [] => batches
  | i :: rest =>
      batch_loop items batch_size rest
        (batches ++ [py_slice items i (i + batch_size)])
  end.

Definition batch_list {A : Type} (items : list A) (batch_size : Z)
  : result (list (list A)) :=
  indices <- py_range 0 (len items) batch_size ;;
  Ok (batch_loop items batch_size indices []).

Definition BATCH_SIZE : Z := 50.

(** The loop over [enumerate(batches, 1)], lines 127 to 158, carrying the
    two counters. *)
Fixpoint upload_batches (total_batches : Z)
  (numbered : list (Z * list PriceSignal))
  (successful_uploads failed_uploads : Z) : io (Z * Z) :=
  match numbered with
  | [] => ret (successful_uploads, failed_uploads)
  | (batch_num, batch) :: rest =>
      emit (InfoProcessing batch_num total_batches (len batch)) ;;;
      counters <~
        try_except
          (dch_payload <~ lift (construct_dch_payload fromisoformat batch) ;;
           upload_result <~ upload_to_dch dch_payload ;;
           emit (InfoUploaded batch_num total_batches
                   (dict_get upload_result "statusCode")) ;;;
           ret (successful_uploads + 1, failed_uploads))
          is_Exception
          (fun e =>
             emit (ErrorFailed batch_num total_batches e) ;;;
             ret (successful_uploads, failed_uploads + 1)) ;;
      upload_batches total_batches rest (fst counters) (snd counters)
  end.

(** [main()]; its value is the exit code handed to [sys.exit]. *)
Definition main : io Z :=
  try_except
    (price_signals <~ lift (get_all_price_signals "NSW1") ;;
     match price_signals with
     | [] => emit WarnNoSignals ;;; ret 0
     | _ =>
         batches <~ lift (batch_list price_signals BATCH_SIZE) ;;
         let total_batches := len batches in
         counters <~ upload_batches total_batches (enumerate 1 batches) 0 0 ;;
         emit (InfoCompleted (len price_signals) (fst counters) (snd counters)) ;;;
         ret (if snd counters =? 0 then 0 else 1)
     end)
    is_Exception
    (fun e => emit (ErrorBackfill e) ;;; ret 1).

End Jobs.

(** ** The design document's reading of the timestamp *)

Definition previous_day (y m d : Z) : Z * Z * Z :=
  if 1 <? d then (y, m, d - 1)
  else if 1 <? m then (y, m - 1, days_in_month y (m - 1))
  else (y - 1, 12, 31).

Definition next_day (y m d : Z) : Z * Z * Z :=
  if d <? days_in_month y m then (y, m, d + 1)
  else if m <? 12 then (y, m + 1, 1)
  else (y + 1, 1, 1).

(** "Normalizes its timestamp to UTC": the same instant with a zero offset.
    The offset is taken off the time of day and the date follows the carry,
    which is at most one day either way since an offset is shorter than a
    day. A naive datetime names no offset and is left as it is. This is the
    document's function, not one the program calls. *)
Definition normalized_to_utc (d : datetime) : datetime :=
  match tzinfo d with
  | None => d
  | Some off =>
      let secs := hour d * 3600 + minute d * 60 + second d - off in
      let carry := secs / 86400 in
      let tod := secs mod 86400 in
      let '(y, m, dd) :=
        if carry <? 0 then previous_day (year d) (month d) (day d)
        else if 0 <? carry then next_day (year d) (month d) (day d)
        else (year d, month d, day d) in
      mk_datetime y m dd (tod / 3600) (tod / 60 mod 60) (tod mod 60)
        (microsecond d) (Some 0)
  end.

(** ** Reference instances of the environment

    The theorems below hold for every [fromisoformat], [json_dumps],
    network and database. The instances here serve to run the program on
    concrete inputs. *)

Definition digit_of (c : ascii) : option Z :=
  let n := Z.of_nat (nat_of_ascii c) in
  if (48 <=? n) && (n <=? 57) then Some (n - 48) else None.

Fixpoint read_digits (k : nat) (s : string) (acc : Z) : option (Z * string) :=
  match k, s with
  | O, _ => Some (acc, s)
  | S k', String c rest =>
      match digit_of c with
      | Some v => read_digits k' rest (10 * acc + v)
      | None => None
      end
  | S _, EmptyString => None
  end.

Definition expect (c : ascii) (s : string) : option string :=
  match s with
  | String c' rest => if Ascii.eqb c c' then Some rest else None
  | EmptyString => None
  end.

Definition obind {A B : Type} (o : option A) (k : A -> option B) : option B :=
  match o with
  | Some a => k a
  | None => None
  end.

(** [HH:MM:SS] *)
Definition read_clock (s : string) : option (Z * Z * Z * string) :=
  obind (read_digits 2 s 0) (fun '(h, s1) =>
  obind (expect ":" s1) (fun s2 =>
  obind (read_digits 2 s2 0) (fun '(mi, s3) =>
  obind (expect ":" s3) (fun s4 =>
  obind (read_digits 2 s4 0) (fun '(sec, s5) =>
  Some (h, mi, sec, s5)))))).

(** Nothing, or [+HH:MM] or [-HH:MM] up to the end of the string. *)
Definition read_offset (s : string) : option (option Z) :=
  match s with
  | EmptyString => Some None
  | String c rest =>
      obind (if Ascii.eqb c "+" then Some 1
             else if Ascii.eqb c "-" then Some (-1) else None) (fun sign =>
      obind (read_digits 2 rest 0) (fun '(h, s1) =>
      obind (expect ":" s1) (fun s2 =>
      obind (read_digits 2 s2 0) (fun '(mi, s3) =>
      match s3 with
      | EmptyString => Some (Some (sign * (h * 3600 + mi * 60)))
      | _ => None
      end))))
  end.

(** [YYYY-MM-DD], alone or followed by one separator character, [HH:MM:SS]
    and an optional offset. *)
Definition read_isoformat (s : string) : option datetime :=
  obind (read_digits 4 s 0) (fun '(y, s1) =>
  obind (expect "-" s1) (fun s2 =>
  obind (read_digits 2 s2 0) (fun '(m, s3) =>
  obind (expect "-" s3) (fun s4 =>
  obind (read_digits 2 s4 0) (fun '(d, s5) =>
  match s5 with
  | EmptyString => Some (mk_datetime y m d 0 0 0 0 None)
  | String _ s6 =>
      obind (read_clock s6) (fun '(h, mi, sec, s7) =>
      obind (read_offset s7) (fun tz =>
      Some (mk_datetime y m d h mi sec 0 tz)))
  end))))).

(** The part of [datetime.fromisoformat] every CPython release since 3.7
    shares on these shapes: the date, or the date and the time to the
    second, with or without an offset in hours and minutes. *)
Definition fromisoformat_ref (s : string) : result datetime :=
  match read_isoformat s with
  | Some d =>
      if valid_datetime d then Ok d
      else Raise (ValueError ("Invalid isoformat string: '" ++ s ++ "'"))
  | None => Raise (ValueError ("Invalid isoformat string: '" ++ s ++ "'"))
  end.

(** Reading back a text of the shape YYYY-MM-DDTHH:MM:SSZ: the six numbers
    its digits spell, or nothing when the text has another shape. *)
Definition read_dch_text (s : string) : option (Z * Z * Z * Z * Z * Z) :=
  obind (read_digits 4 s 0) (fun '(y, s1) =>
  obind (expect "-" s1) (fun s2 =>
  obind (read_digits 2 s2 0) (fun '(m, s3) =>
  obind (expect "-" s3) (fun s4 =>
  obind (read_digits 2 s4 0) (fun '(d, s5) =>
  obind (expect "T" s5) (fun s6 =>
  obind (read_clock s6) (fun '(h, mi, sec, s7) =>
  match s7 with
  | String c EmptyString =>
      if Ascii.eqb c "Z" then Some (y, m, d, h, mi, sec) else None
  | _ => None
  end))))))).

Definition dquote : string := String (ascii_of_nat 34) EmptyString.

Fixpoint json_escape (s : string) : string :=
  match s with
  | EmptyString => EmptyString
  | String c rest =>
      if Ascii.eqb c (ascii_of_nat 34) then "\" ++ dquote ++ json_escape rest
      else if Ascii.eqb c "\" then "\\" ++ json_escape rest
      else String c (json_escape rest)
  end.

(** [json.dumps] with its default separators, for text made of printable
    ASCII. *)
Fixpoint json_dumps_ref (v : pyval) : string :=
  match v with
  | PyInt n => decimal n
  | PyStr s => dquote ++ json_escape s ++ dquote
  | PyList items =>
      "[" ++
      (fix elements (l : list pyval) : string :=
         match l with
         | [] => ""
         | x :: rest =>
             json_dumps_ref x ++
             match rest with [] => "" | _ => ", " ++ elements rest end
         end) items ++ "]"
  | PyDict entries =>
      "{" ++
      (fix members (l : list (string * pyval)) : string :=
         match l with
         | [] => ""
         | (k, x) :: rest =>
             dquote ++ json_escape k ++ dquote ++ ": " ++ json_dumps_ref x ++
             match rest with [] => "" | _ => ", " ++ members rest end
         end) entries ++ "}"
  end.

(** A remote end that accepts every upload. *)
Definition network_ok (history : list pyval) (payload : pyval) : http_outcome :=
  Response 200 "OK" "{}".

(** A remote end that answers the [n]-th upload (from 1) with a 503 and
    accepts the others. *)
Definition network_failing_at (n : Z) (history : list pyval) (payload : pyval)
  : http_outcome :=
  if len history + 1 =? n then Response 503 "Service Unavailable" ""
  else Response 200 "OK" "{}".

(** Rows five minutes apart from midnight of 2024-01-01, all with the same
    price. *)
Definition row_at (k : Z) (price : float) : PriceSignal :=
  mk_PriceSignal
    (IsDatetime (mk_datetime 2024 1 (1 + k / 288) (k mod 288 / 12) (k mod 12 * 5) 0 0 None))
    price "NSW1".

Definition rows (n : nat) (price : float) : list PriceSignal :=
  map (fun k => row_at (Z.of_nat k) price) (seq 0 n).

(** ** Reading a trace *)

(** The batch numbers the loop started on, in order. *)
Fixpoint attempted (tr : list event) : list Z :=
  match tr with
  | [] => []
  | InfoProcessing batch_num _ _ :: rest => batch_num :: attempted rest
  | _ :: rest => attempted rest
  end.

(** How each batch ended, in order: [true] where the success branch ran
    ([successful_uploads += 1]), [false] where the handler ran
    ([failed_uploads += 1]). *)
Fixpoint outcomes (tr : list event) : list (Z * bool) :=
  match tr with
  | [] => []
  | InfoUploaded batch_num _ _ :: rest => (batch_num, true) :: outcomes rest
  | ErrorFailed batch_num _ _ :: rest => (batch_num, false) :: outcomes rest
  | _ :: rest => outcomes rest
  end.

(** The counters as the closing log record reports them:
    [(successful_uploads, failed_uploads)]. *)
Fixpoint reported_counters (tr : list event) : option (Z * Z) :=
  match tr with
  | [] => None
  | InfoCompleted _ successful failed :: rest =>
      match reported_counters rest with
      | Some later => Some later
      | None => Some (successful, failed)
      end
  | _ :: rest => reported_counters rest
  end.

Definition count_outcome (b : bool) (os : list (Z * bool)) : Z :=
  len (filter (fun o => Bool.eqb (snd o) b) os).

(** [1, 2, ..., n] *)
Definition numbers_from (start : Z) (n : nat) : list Z :=
  map (fun k => start + Z.of_nat k) (seq 0 n).

(** The field [key] of the [i]-th observation of an envelope. *)
Definition observation_field (envelope : pyval) (i : nat) (key : string)
  : option pyval :=
  match dict_get envelope "data" with
  | Some (PyList data) =>
      match nth_error data i with
      | Some obs => dict_get obs key
      | None => None
      end
  | _ => None
  end.

(** The point table of an envelope. *)
Definition point_table (envelope : pyval) : option pyval :=
  match dict_get envelope "metadata" with
  | Some metadata => dict_get metadata "points"
  | None => None
  end.

(** The length of the data sequence of an envelope. *)
Definition data_length (envelope : pyval) : option Z :=
  match dict_get envelope "data" with
  | Some (PyList data) => Some (len data)
  | _ => None
  end.

(** The [i]-th observation of an envelope. *)
Definition observation_at (envelope : pyval) (i : nat) : option pyval :=
  match dict_get envelope "data" with
  | Some (PyList data) => nth_error data i
  | _ => None
  end.

(** The shape the payload has while the loop runs: one point table and the
    observations appended so far. *)
Definition envelope (points : pyval) (data : list pyval) : pyval :=
  PyDict [("metadata", PyDict [("points", points)]); ("data", PyList data)].

(** The observation the loop builds from a timestamp and a price. *)
Definition observation_of (timestamp : datetime) (price : float) : pyval :=
  PyDict [("t", PyStr (strftime_dch timestamp));
          ("p", PyStr "0");
          ("n", PyInt (calculate_rrp_value price))].

(** A row whose timestamp is a [datetime] or a string that
    [fromisoformat] reads. *)
Definition readable (fromisoformat : string -> result datetime)
  (price_signal : PriceSignal) : bool :=
  match row_timestamp fromisoformat price_signal with
  | Ok _ => true
  | Raise _ => false
  end.

(** [replace(tzinfo=tz)] *)
Definition replace_tzinfo (d : datetime) (tz : option Z) : datetime :=
  mk_datetime (year d) (month d) (day d) (hour d) (minute d) (second d)
    (microsecond d) tz.

(** C2 as the design document words it: the [t] field of every observation
    is the row's timestamp normalized to UTC and then formatted. *)
Definition t_field_is_utc_instant : Prop :=
  forall (fromisoformat : string -> result datetime)
         (price_signals : list PriceSignal) (payload : pyval)
         (i : nat) (price_signal : PriceSignal) (timestamp : datetime),
    construct_dch_payload fromisoformat price_signals = Ok payload ->
    nth_error price_signals i = Some price_signal ->
    row_timestamp fromisoformat price_signal = Ok timestamp ->
    observation_field payload i "t" =
      Some (PyStr (strftime_dch (normalized_to_utc timestamp))).

(** The three rows of the document's end-to-end scenario, the timestamps
    given as text. *)
Definition scenario_rows : list PriceSignal :=
  [mk_PriceSignal (NotDatetime "2024-01-01T00:00:00") 450 "NSW1";
   mk_PriceSignal (NotDatetime "2024-01-01T00:05:00") 750 "NSW1";
   mk_PriceSignal (NotDatetime "2024-01-01T00:10:00") 1500 "NSW1"].

(** Whether [raise_for_status] lets a response through. *)
Definition accepted (outcome : http_outcome) : bool :=
  match outcome with
  | Response status_code _ _ => negb ((400 <=? status_code) && (status_code <? 600))
  | ConnectionFailure _ => false
  end.

Section BatchVerdicts.

Variable fromisoformat : string -> result datetime.
Variable network : list pyval -> pyval -> http_outcome.

(** What one batch posts: its payload when it can be built. *)
Definition batch_posted (batch : list PriceSignal) : list pyval :=
  match construct_dch_payload fromisoformat batch with
  | Ok payload => [payload]
  | Raise _ => []
  end.

(** Whether one batch goes through, the remote end having seen [history]. *)
Definition batch_ok (history : list pyval) (batch : list PriceSignal) : bool :=
  match construct_dch_payload fromisoformat batch with
  | Ok payload => accepted (network history payload)
  | Raise _ => false
  end.

(** The verdict of every batch taken on its own: batch [k] is judged by its
    own payload and by the answer of the remote end, which has seen the
    payloads of the batches before it. *)
Fixpoint batch_verdicts (history : list pyval) (start : Z)
  (batches : list (list PriceSignal)) : list (Z * bool) :=
  match batches with
  | [] => []
  | batch :: rest =>
      (start, batch_ok history batch) ::
      batch_verdicts (history ++ batch_posted batch) (start + 1) rest
  end.

(** The events of one turn of the loop and whether it took the success
    branch. *)
Definition batch_events (total_batches batch_num : Z) (batch : list PriceSignal)
  (history : list pyval) : list event * bool :=
  let started := InfoProcessing batch_num total_batches (len batch) in
  match construct_dch_payload fromisoformat batch with
  | Raise e => ([started; ErrorFailed batch_num total_batches e], false)
  | Ok payload =>
      let post := Post DCH_UPLOAD_URL payload in
      match network history payload with
      | ConnectionFailure detail =>
          ([started; post;
            ErrorFailed batch_num total_batches (RequestException detail)], false)
      | Response status_code reason text =>
          if (400 <=? status_code) && (status_code <? 600)
          then ([started; post;
                 ErrorFailed batch_num total_batches (HTTPError status_code reason)],
                false)
          else ([started; post;
                 InfoUploaded batch_num total_batches (Some (PyInt status_code))],
                true)
      end
  end.

End BatchVerdicts.

(** C3 as the design document words it: a timestamp that cannot be read
    while the envelope of a batch is built aborts the run. The exception
    reaches the handler around the whole run, the batch is not counted as
    failed and no later batch is started. *)
Definition parse_failure_aborts_run : Prop :=
  forall (fromisoformat : string -> result datetime)
         (network : list pyval -> pyval -> http_outcome)
         (get_all_price_signals : string -> result (list PriceSignal))
         (price_signals : list PriceSignal) (batches : list (list PriceSignal))
         (k : nat) (batch : list PriceSignal) (e : exn) (code : Z)
         (tr : list event),
    get_all_price_signals "NSW1" = Ok price_signals ->
    batch_list price_signals BATCH_SIZE = Ok batches ->
    nth_error batches k = Some batch ->
    construct_dch_payload fromisoformat batch = Raise e ->
    main fromisoformat network get_all_price_signals [] = (Ok code, tr) ->
    In (ErrorBackfill e) tr /\
    ~ In (Z.of_nat k + 1, false) (outcomes tr) /\
    ~ In (Z.of_nat k + 2) (attempted tr).

(** Fifty-one rows, the first with a timestamp no parser reads. *)
Definition rows_with_bad_first : list PriceSignal :=
  mk_PriceSignal (NotDatetime "yesterday") 750 "NSW1" :: rows 50 750.

(** ** [config.py], the module body *)

(** The names bound by the module. *)
Record config : Type := mk_config {
  cfg_DCH_API_KEY : string;
  cfg_DCH_UPLOAD_URL : string;
  cfg_DCH_DATA_POOL_ID : string;
  cfg_DCH_POINT_ID : string;
  cfg_DB_HOST : string;
  cfg_DB_NAME : string;
  cfg_DB_PASSWORD : string;
  cfg_DB_PORT : string;
  cfg_DB_USER : string
}.

(** How importing the module ends: the names are bound, or the handler of
    the module raised [MissingEnvironmentVariableError], or an exception the
    handler does not catch went through. *)
Inductive import_outcome : Type :=
| Imported (c : config)
| MissingEnvironmentVariableError (message : string)
| Uncaught (e : exn).

(** [os.environ[key]], the environment being what [load_dotenv] left. *)
Definition environ_getitem (environ : string -> option string) (key : string)
  : result string :=
  match environ key with
  | Some value => Ok value
  | None => Raise (KeyError key)
  end.

(** The body of the [try], lines 13 to 21. *)
Definition read_environment (environ : string -> option string) : result config :=
  api_key <- environ_getitem environ "DCH_API_KEY" ;;
  let upload_url := DCH_UPLOAD_URL in
  let data_pool_id := DCH_DATA_POOL_ID in
  let point_id := DCH_POINT_ID in
  db_host <- environ_getitem environ "DB_HOST" ;;
  db_name <- environ_getitem environ "DB_NAME" ;;
  db_password <- environ_getitem environ "DB_PASSWORD" ;;
  db_port <- environ_getitem environ "DB_PORT" ;;
  db_user <- environ_getitem environ "DB_USER" ;;
  Ok (mk_config api_key upload_url data_pool_id point_id
        db_host db_name db_password db_port db_user).

(** The [try] with its [except KeyError as err]; [err.args[0]] is the key. *)
Definition import_config (environ : string -> option string) : import_outcome :=
  match read_environment environ with
  | Ok c => Imported c
  | Raise (KeyError key) =>
      MissingEnvironmentVariableError ("Missing environment variable:" ++ key)
  | Raise e => Uncaught e
  end.

(** The environment variables the module reads, in the order it reads
    them. *)
Definition required_variables : list string :=
  ["DCH_API_KEY"; "DB_HOST"; "DB_NAME"; "DB_PASSWORD"; "DB_PORT"; "DB_USER"].

Definition is_set (environ : string -> option string) (key : string) : bool :=
  match environ key with
  | Some _ => true
  | None => false
  end.

(** An environment given as a list of bindings, the first binding of a name
    winning. *)
Fixpoint environ_of (bindings : list (string * string)) (key : string)
  : option string :=
  match bindings with
  | [] => None
  | (k, v) :: rest => if String.eqb k key then Some v else environ_of rest key
  end.

(** ** Reading a payload *)

(** The data sequence of an envelope. *)
Definition payload_data (payload : pyval) : list pyval :=
  match dict_get payload "data" with
  | Some (PyList data) => data
  | _ => []
  end.

(** The observation the loop appends for a row it can read. *)
Definition row_observation (fromisoformat : string -> result datetime)
  (price_signal : PriceSignal) : option pyval :=
  match row_timestamp fromisoformat price_signal with
  | Ok timestamp => Some (observation_of timestamp (rrp price_signal))
  | Raise _ => None
  end.

(** The response of the handler to a failure. *)
Definition failure_response (json_dumps : pyval -> string) (e : exn) : pyval :=
  PyDict [("statusCode", PyInt 500);
          ("body", PyStr (json_dumps (PyDict
             [("error", PyStr (exn_str e));
              ("message", PyStr "Failed to process and upload price signals")])))].

(** What [upload_to_dch] returns or raises on an outcome of the post. *)
Definition upload_result_of (outcome : http_outcome) : result pyval :=
  match outcome with
  | ConnectionFailure detail => Raise (RequestException detail)
  | Response status_code reason text =>
      if (400 <=? status_code) && (status_code <? 600)
      then Raise (HTTPError status_code reason)
      else Ok (PyDict [("statusCode", PyInt status_code); ("body", PyStr text)])
  end.

(** The response of the handler to an upload that went through. *)
Definition success_response (json_dumps : pyval -> string)
  (price_signals : list PriceSignal) (upload_result : pyval) : pyval :=
  PyDict [("statusCode", PyInt 200);
          ("body", PyStr (json_dumps (PyDict
             [("message",
               PyStr "Successfully processed and uploaded price signals to DCH");
              ("price_signals_processed", PyInt (len price_signals));
              ("dch_response", upload_result)])))].

(** * Properties *)

(** ** Order on binary64 *)

Lemma SFcompare_antisym x y :
  SFcompare y x = option_map CompOpp (SFcompare x y).
Proof.
  assert (Hm : forall m n,
             Pos.compare_cont Eq n m = CompOpp (Pos.compare_cont Eq m n))
    by (intros m n; symmetry; apply (Pos.compare_cont_antisym m n Eq)).
  destruct x as [s|s| |s m e], y as [t|t| |t n f]; cbn;
    try destruct s; try destruct t; try reflexivity;
    rewrite (Z.compare_antisym e f), (Hm m n);
    destruct (e ?= f); cbn; try reflexivity.
Qed.

Lemma SFleb_not_SFltb x y : SFleb x y = true -> SFltb y x = false.
Proof.
  unfold SFleb, SFltb. rewrite (SFcompare_antisym x y).
  destruct (SFcompare x y) as [[]|]; cbn; congruence.
Qed.

(** Two positive floats with the same mantissa: at or above the one with the
    larger exponent is not below the one with the smaller. *)
Lemma SFleb_above_smaller_exponent m e1 e2 x :
  e1 < e2 -> SFleb (S754_finite false m e2) x = true ->
  SFltb x (S754_finite false m e1) = false.
Proof.
  intros He. unfold SFleb, SFltb.
  destruct x as [s|s| |s n f]; cbn; try destruct s; try congruence.
  destruct (Z.compare_spec e2 f), (Z.compare_spec f e1); try lia; congruence.
Qed.

Lemma SFleb_zero_SFltb_positive x m e :
  SFleb x (S754_zero false) = true -> SFltb x (S754_finite false m e) = true.
Proof.
  unfold SFleb, SFltb.
  destruct x as [s|s| |s n f]; cbn; try destruct s; cbn; congruence.
Qed.

Lemma Prim2SF_500 : Prim2SF 500 = S754_finite false 8796093022208000 (-44).
Proof. vm_compute. reflexivity. Qed.

Lemma Prim2SF_1000 : Prim2SF 1000 = S754_finite false 8796093022208000 (-43).
Proof. vm_compute. reflexivity. Qed.

Lemma at_least_500_not_below p :
  (500 <=? p)%float = true -> (p <? 500)%float = false.
Proof. rewrite leb_spec, ltb_spec. apply SFleb_not_SFltb. Qed.

Lemma at_least_1000_not_below p :
  (1000 <=? p)%float = true -> (p <? 1000)%float = false.
Proof. rewrite leb_spec, ltb_spec. apply SFleb_not_SFltb. Qed.

Lemma at_least_1000_not_below_500 p :
  (1000 <=? p)%float = true -> (p <? 500)%float = false.
Proof.
  rewrite leb_spec, ltb_spec, Prim2SF_500, Prim2SF_1000.
  apply SFleb_above_smaller_exponent. lia.
Qed.

Lemma at_most_zero_below_500 p :
  (p <=? 0)%float = true -> (p <? 500)%float = true.
Proof.
  rewrite leb_spec, ltb_spec, Prim2SF_500.
  change (Prim2SF 0) with (S754_zero false).
  apply SFleb_zero_SFltb_positive.
Qed.

(** ** The classifier *)

(** C4: [calculate_rrp_value] returns a level for every float; it is 0 below
    500 (negative and zero prices included), 1 from 500 inclusive to 1000
    exclusive, 2 from 1000 inclusive upwards; the four boundary values of
    the document fall as it says. *)
#[warnings="-inexact-float"]
Theorem calculate_rrp_value_bands :
  (forall p, exists level, calculate_rrp_value p = level /\ 0 <= level <= 2) /\
  (forall p, (p <? 500)%float = true -> calculate_rrp_value p = 0) /\
  (forall p, (p <=? 0)%float = true -> calculate_rrp_value p = 0) /\
  (forall p, (500 <=? p)%float = true -> (p <? 1000)%float = true ->
             calculate_rrp_value p = 1) /\
  (forall p, (1000 <=? p)%float = true -> calculate_rrp_value p = 2) /\
  calculate_rrp_value 499.99 = 0 /\
  calculate_rrp_value 500.0 = 1 /\
  calculate_rrp_value 999.99 = 1 /\
  calculate_rrp_value 1000.0 = 2.
Proof.
  repeat split; try reflexivity.
  - intros p. unfold calculate_rrp_value.
    destruct (p <? 500)%float; [exists 0; lia|].
    destruct (p <? 1000)%float; [exists 1; lia | exists 2; lia].
  - intros p H. unfold calculate_rrp_value. now rewrite H.
  - intros p H. unfold calculate_rrp_value.
    now rewrite (at_most_zero_below_500 p H).
  - intros p H1 H2. unfold calculate_rrp_value.
    now rewrite (at_least_500_not_below p H1), H2.
  - intros p H. unfold calculate_rrp_value.
    now rewrite (at_least_1000_not_below_500 p H), (at_least_1000_not_below p H).
Qed.

Lemma calculate_rrp_value_bands_witness :
  calculate_rrp_value 120.5 = 0 /\
  calculate_rrp_value (-35) = 0 /\
  calculate_rrp_value 750 = 1 /\
  calculate_rrp_value infinity = 2.
Proof.
  destruct calculate_rrp_value_bands as (_ & Hlow & Hneg & Hmid & Hhigh & _).
  split; [|split; [|split]].
  - apply Hlow. reflexivity.
  - apply Hneg. reflexivity.
  - apply Hmid; reflexivity.
  - apply Hhigh. reflexivity.
Defined.

(** C10: a NaN price compares false with both thresholds and falls through
    to the top band. *)
Theorem calculate_rrp_value_nan :
  (nan <? 500)%float = false /\ (nan <? 1000)%float = false /\
  calculate_rrp_value nan = 2.
Proof. repeat split; reflexivity. Qed.

(** ** The payload builder *)

Section PayloadBuilder.

Variable fromisoformat : string -> result datetime.

Lemma add_observation_envelope points data price_signal :
  add_observation fromisoformat (envelope points data) price_signal =
  (timestamp <- row_timestamp fromisoformat price_signal ;;
   Ok (envelope points (data ++ [observation_of timestamp (rrp price_signal)]))).
Proof.
  unfold add_observation.
  destruct (row_timestamp fromisoformat price_signal); reflexivity.
Qed.

(** Rows that can all be read: the loop appends their observations, one
    per row and in the order of the rows. *)
Lemma add_observations_readable price_signals :
  forall points data,
    forallb (readable fromisoformat) price_signals = true ->
    exists obs,
      add_observations fromisoformat (envelope points data) price_signals =
        Ok (envelope points (data ++ obs)) /\
      Forall2 (fun r o => exists ts, row_timestamp fromisoformat r = Ok ts /\
                                     o = observation_of ts (rrp r))
              price_signals obs.
Proof.
  induction price_signals as [|r rest IH]; intros points data Hread.
  - exists []. rewrite app_nil_r. split; [reflexivity | constructor].
  - cbn [forallb] in Hread. apply andb_prop in Hread as [Hr Hrest].
    unfold readable in Hr.
    destruct (row_timestamp fromisoformat r) as [ts|e] eqn:Hts; [|discriminate].
    destruct (IH points (data ++ [observation_of ts (rrp r)])%list Hrest)
      as (obs & Hrun & Hall).
    exists (observation_of ts (rrp r) :: obs). split.
    + cbn [add_observations]. rewrite add_observation_envelope, Hts.
      cbn [bind]. rewrite Hrun, <- app_assoc. reflexivity.
    + constructor; [exists ts; auto | exact Hall].
Qed.

(** One row that cannot be read: the loop raises what reading a row
    raised, whatever the payload held so far. *)
Lemma add_observations_unreadable price_signals :
  forall points data,
    forallb (readable fromisoformat) price_signals = false ->
    exists r e,
      In r price_signals /\ row_timestamp fromisoformat r = Raise e /\
      add_observations fromisoformat (envelope points data) price_signals = Raise e.
Proof.
  induction price_signals as [|r rest IH]; intros points data Hread.
  - discriminate.
  - cbn [forallb] in Hread. cbn [add_observations].
    rewrite add_observation_envelope.
    unfold readable in Hread at 1.
    destruct (row_timestamp fromisoformat r) as [ts|e] eqn:Hts.
    + cbn [andb] in Hread. cbn [bind].
      destruct (IH points (data ++ [observation_of ts (rrp r)])%list Hread)
        as (r' & e' & Hin & Hr' & Hrun).
      exists r', e'. repeat split; [right; exact Hin | exact Hr' | exact Hrun].
    + exists r, e. repeat split; [left; reflexivity | exact Hts].
Qed.

Lemma construct_dch_payload_readable price_signals :
  forallb (readable fromisoformat) price_signals = true ->
  exists points obs,
    construct_dch_payload fromisoformat price_signals = Ok (envelope points obs) /\
    points = match price_signals with
             | [] => PyDict []
             | _ => PyDict [("0", PyStr composite_point_id)]
             end /\
    Forall2 (fun r o => exists ts, row_timestamp fromisoformat r = Ok ts /\
                                   o = observation_of ts (rrp r))
            price_signals obs.
Proof.
  intros Hread. destruct price_signals as [|r rest].
  - exists (PyDict []), []. repeat split. constructor.
  - destruct (add_observations_readable (r :: rest)
                (PyDict [("0", PyStr composite_point_id)]) [] Hread)
      as (obs & Hrun & Hall).
    exists (PyDict [("0", PyStr composite_point_id)]), obs.
    split; [exact Hrun | split; [reflexivity | exact Hall]].
Qed.

Lemma Forall2_nth_error {A B : Type} (P : A -> B -> Prop) xs ys :
  Forall2 P xs ys ->
  forall i x, nth_error xs i = Some x ->
  exists y, nth_error ys i = Some y /\ P x y.
Proof.
  induction 1 as [|x0 y0 xs ys Hxy _ IH]; intros [|i] x Hx; try discriminate.
  - injection Hx as <-. exists y0. split; [reflexivity | exact Hxy].
  - apply (IH i x Hx).
Qed.

End PayloadBuilder.

(** ** Timestamps *)

(** From 1000 on the year takes four digits and the text is the six fields
    in decimal between the separators of the format. *)
Lemma strftime_dch_text d :
  1000 <= year d ->
  strftime_dch d =
  pad4 (year d) ++ "-" ++ pad2 (month d) ++ "-" ++ pad2 (day d) ++ "T" ++
  pad2 (hour d) ++ ":" ++ pad2 (minute d) ++ ":" ++ pad2 (second d) ++ "Z".
Proof.
  intros Hyear. unfold strftime_dch, year_text.
  destruct (Z.ltb_spec (year d) 1000); [lia | reflexivity].
Qed.

Lemma strftime_dch_length d :
  1000 <= year d -> String.length (strftime_dch d) = 20%nat.
Proof. intros Hyear. now rewrite strftime_dch_text. Qed.

Lemma nat_of_ascii_digit n :
  nat_of_ascii (digit n) = Z.to_nat (48 + n mod 10).
Proof.
  unfold digit. apply nat_ascii_embedding.
  pose proof (Z.mod_pos_bound n 10 ltac:(lia)). lia.
Qed.

Lemma digit_of_digit n : digit_of (digit n) = Some (n mod 10).
Proof.
  unfold digit_of. rewrite nat_of_ascii_digit.
  pose proof (Z.mod_pos_bound n 10 ltac:(lia)) as Hn.
  rewrite Z2Nat.id by lia.
  destruct (Z.leb_spec 48 (48 + n mod 10)), (Z.leb_spec (48 + n mod 10) 57);
    try lia.
  cbn [andb]. f_equal. lia.
Qed.

Lemma digit_inj a b : digit a = digit b -> a mod 10 = b mod 10.
Proof.
  intros H. apply (f_equal nat_of_ascii) in H. rewrite !nat_of_ascii_digit in H.
  pose proof (Z.mod_pos_bound a 10 ltac:(lia)).
  pose proof (Z.mod_pos_bound b 10 ltac:(lia)). lia.
Qed.

Lemma read_digits_pad2 n rest :
  0 <= n < 100 -> read_digits 2 (pad2 n ++ rest) 0 = Some (n, rest).
Proof.
  intros Hn. unfold pad2. cbn [append read_digits].
  rewrite !digit_of_digit. do 2 f_equal.
  pose proof (Z.div_mod n 10 ltac:(lia)).
  pose proof (Z.mod_pos_bound n 10 ltac:(lia)).
  assert (0 <= n / 10 < 10)
    by (split; [apply Z.div_pos; lia | apply Z.div_lt_upper_bound; lia]).
  rewrite (Z.mod_small (n / 10) 10) by lia. lia.
Qed.

Lemma read_digits_pad4 n rest :
  0 <= n < 10000 -> read_digits 4 (pad4 n ++ rest) 0 = Some (n, rest).
Proof.
  intros Hn. unfold pad4, pad2. cbn [append read_digits].
  rewrite !digit_of_digit. do 2 f_equal.
  Z.div_mod_to_equations. lia.
Qed.

Lemma valid_datetime_fields d :
  valid_datetime d = true ->
  1 <= year d <= 9999 /\ 1 <= month d <= 12 /\ 1 <= day d <= 31 /\
  0 <= hour d < 24 /\ 0 <= minute d < 60 /\ 0 <= second d < 60 /\
  match tzinfo d with
  | None => True
  | Some off => -86400 < off < 86400
  end.
Proof.
  unfold valid_datetime. intros H.
  repeat (apply andb_prop in H as [H ?]).
  assert (days_in_month (year d) (month d) <= 31).
  { unfold days_in_month.
    destruct (month d =? 2); [destruct (is_leap (year d)); lia|].
    destruct ((month d =? 4) || (month d =? 6) || (month d =? 9) || (month d =? 11));
      lia. }
  repeat split; try lia.
  destruct (tzinfo d); [|exact I].
  match goal with Htz : _ && _ = true |- _ => apply andb_prop in Htz as [? ?] end.
  lia.
Qed.

(** Read back, the text gives the six fields of the timestamp. *)
Lemma read_dch_text_strftime_dch d :
  valid_datetime d = true -> 1000 <= year d ->
  read_dch_text (strftime_dch d) =
  Some (year d, month d, day d, hour d, minute d, second d).
Proof.
  intros Hvalid Hyear.
  destruct (valid_datetime_fields d Hvalid) as (Hy & Hm & Hd & Hh & Hmi & Hs & _).
  rewrite strftime_dch_text by exact Hyear.
  unfold read_dch_text.
  rewrite read_digits_pad4 by lia. cbn [obind expect append Ascii.eqb Bool.eqb].
  rewrite read_digits_pad2 by lia. cbn [obind expect append Ascii.eqb Bool.eqb].
  rewrite read_digits_pad2 by lia. cbn [obind expect append Ascii.eqb Bool.eqb].
  unfold read_clock.
  rewrite read_digits_pad2 by lia. cbn [obind expect append Ascii.eqb Bool.eqb].
  rewrite read_digits_pad2 by lia. cbn [obind expect append Ascii.eqb Bool.eqb].
  rewrite read_digits_pad2 by lia. reflexivity.
Qed.

Lemma pad2_inj a b :
  0 <= a < 100 -> 0 <= b < 100 -> pad2 a = pad2 b -> a = b.
Proof.
  intros Ha Hb H. unfold pad2 in H. injection H as Htens Hunits.
  apply digit_inj in Htens. apply digit_inj in Hunits.
  Z.div_mod_to_equations. lia.
Qed.

Lemma length_append s1 s2 :
  String.length (s1 ++ s2) = (String.length s1 + String.length s2)%nat.
Proof. induction s1 as [|c s1 IH]; cbn; [reflexivity | now rewrite IH]. Qed.

(** Two texts that end in tails of the same length and are equal have the
    same tail. *)
Lemma append_inj_tail s1 : forall s2 t1 t2,
  String.length t1 = String.length t2 ->
  s1 ++ t1 = s2 ++ t2 -> t1 = t2.
Proof.
  induction s1 as [|c s1 IH]; intros [|c' s2] t1 t2 Hlen H; cbn in H.
  - exact H.
  - apply (f_equal String.length) in H. cbn in H. rewrite length_append in H. lia.
  - apply (f_equal String.length) in H. cbn in H. rewrite length_append in H. lia.
  - injection H as _ H. now apply (IH s2 t1 t2).
Qed.

(** The clock of a text: equal texts spell the same hour, minute and
    second. *)
Lemma strftime_dch_clock_inj d1 d2 :
  0 <= hour d1 < 100 -> 0 <= minute d1 < 100 -> 0 <= second d1 < 100 ->
  0 <= hour d2 < 100 -> 0 <= minute d2 < 100 -> 0 <= second d2 < 100 ->
  strftime_dch d1 = strftime_dch d2 ->
  hour d1 = hour d2 /\ minute d1 = minute d2 /\ second d1 = second d2.
Proof.
  intros Hh1 Hm1 Hs1 Hh2 Hm2 Hs2 H. unfold strftime_dch in H.
  apply append_inj_tail in H; [|reflexivity].
  cbn [append] in H. unfold pad2 in H.
  injection H as _ _ _ _ Hh Hh' Hm Hm' Hs Hs'.
  repeat split; apply pad2_inj; try assumption; unfold pad2; congruence.
Qed.

(** A non-zero offset moves the clock, so the text is not that of the UTC
    instant. *)
Lemma strftime_dch_not_utc_when_shifted d off :
  valid_datetime d = true -> tzinfo d = Some off -> off <> 0 ->
  strftime_dch d <> strftime_dch (normalized_to_utc d).
Proof.
  intros Hvalid Htz Hoff Heq.
  destruct (valid_datetime_fields d Hvalid) as (_ & _ & _ & Hh & Hm & Hs & Hrange).
  rewrite Htz in Hrange.
  unfold normalized_to_utc in Heq. rewrite Htz in Heq.
  pose proof (Z.mod_pos_bound (hour d * 3600 + minute d * 60 + second d - off)
                86400 ltac:(lia)) as Htod.
  pose proof (Z.div_mod (hour d * 3600 + minute d * 60 + second d - off)
                86400 ltac:(lia)) as Hsecs.
  remember ((hour d * 3600 + minute d * 60 + second d - off) mod 86400) as tod.
  remember ((hour d * 3600 + minute d * 60 + second d - off) / 86400) as carry.
  destruct (if carry <? 0
            then previous_day (year d) (month d) (day d)
            else if 0 <? carry
                 then next_day (year d) (month d) (day d)
                 else (year d, month d, day d)) as [[y m] dd].
  assert (Hclock : 0 <= tod / 3600 < 100 /\ 0 <= tod / 60 mod 60 < 100 /\
                   0 <= tod mod 60 < 100 /\
                   tod = tod / 3600 * 3600 + tod / 60 mod 60 * 60 + tod mod 60).
  { clear - Htod. Z.div_mod_to_equations. lia. }
  destruct Hclock as (Hh' & Hm' & Hs' & Hsame).
  apply strftime_dch_clock_inj in Heq; cbn [hour minute second] in *; try lia.
Qed.

Lemma strftime_dch_ignores_tzinfo d tz :
  strftime_dch (replace_tzinfo d tz) = strftime_dch d.
Proof. reflexivity. Qed.

Lemma valid_datetime_clock d :
  valid_datetime d = true ->
  0 <= hour d < 24 /\ 0 <= minute d < 60 /\ 0 <= second d < 60.
Proof.
  unfold valid_datetime. intros H.
  repeat (apply andb_prop in H as [H ?]). lia.
Qed.

(** An aware datetime whose offset is zero is its own UTC form. *)
Lemma normalized_to_utc_zero_offset d :
  valid_datetime d = true -> tzinfo d = Some 0 -> normalized_to_utc d = d.
Proof.
  intros Hvalid Htz. destruct (valid_datetime_clock d Hvalid) as (Hh & Hm & Hs).
  unfold normalized_to_utc. rewrite Htz.
  set (secs := hour d * 3600 + minute d * 60 + second d - 0).
  assert (Hcarry : secs / 86400 = 0) by (apply Z.div_small; lia).
  assert (Htod : secs mod 86400 = secs) by (apply Z.mod_small; lia).
  rewrite Hcarry, Htod. cbn [Z.ltb Z.compare].
  assert (H1 : secs / 3600 = hour d)
    by (symmetry; apply Z.div_unique with (r := minute d * 60 + second d); lia).
  assert (H2 : secs / 60 = hour d * 60 + minute d)
    by (symmetry; apply Z.div_unique with (r := second d); lia).
  assert (H3 : secs mod 60 = second d)
    by (symmetry; apply Z.mod_unique with (q := hour d * 60 + minute d); lia).
  assert (H4 : (hour d * 60 + minute d) mod 60 = minute d)
    by (symmetry; apply Z.mod_unique with (q := hour d); lia).
  rewrite H1, H2, H3, H4. clear - Htz.
  destruct d; cbn in *. now subst.
Qed.

Lemma strftime_dch_utc_when_no_shift d :
  valid_datetime d = true ->
  tzinfo d = None \/ tzinfo d = Some 0 ->
  strftime_dch d = strftime_dch (normalized_to_utc d).
Proof.
  intros Hvalid [Htz|Htz].
  - unfold normalized_to_utc. now rewrite Htz.
  - now rewrite normalized_to_utc_zero_offset.
Qed.

(** ** The envelope *)

(** C8: on the empty list the builder returns the envelope with an empty
    point table and an empty data sequence, and raises nothing. *)
Theorem construct_dch_payload_empty (fromisoformat : string -> result datetime) :
  construct_dch_payload fromisoformat [] =
  Ok (PyDict [("metadata", PyDict [("points", PyDict [])]); ("data", PyList [])]).
Proof. reflexivity. Qed.

(** C5: for a non-empty list of rows with readable timestamps the builder
    returns an envelope whose point table is the single entry
    "0" -> "evse:" + DCH_DATA_POOL_ID + ":" + DCH_POINT_ID, whose data
    sequence is as long as the input, and whose i-th observation is built
    from the i-th row: its formatted timestamp, the point key "0" and the
    level of its price. *)
Theorem construct_dch_payload_observations
  (fromisoformat : string -> result datetime) (price_signals : list PriceSignal) :
  price_signals <> [] ->
  forallb (readable fromisoformat) price_signals = true ->
  exists payload,
    construct_dch_payload fromisoformat price_signals = Ok payload /\
    point_table payload =
      Some (PyDict [("0", PyStr ("evse:" ++ DCH_DATA_POOL_ID ++ ":" ++ DCH_POINT_ID))]) /\
    data_length payload = Some (len price_signals) /\
    forall i r,
      nth_error price_signals i = Some r ->
      exists ts,
        row_timestamp fromisoformat r = Ok ts /\
        observation_at payload i =
          Some (PyDict [("t", PyStr (strftime_dch ts));
                        ("p", PyStr "0");
                        ("n", PyInt (calculate_rrp_value (rrp r)))]).
Proof.
  intros Hne Hread.
  destruct (construct_dch_payload_readable fromisoformat price_signals Hread)
    as (points & obs & Hrun & Hpoints & Hall).
  exists (envelope points obs). split; [exact Hrun|].
  split; [|split].
  - destruct price_signals; [contradiction|]. now subst points.
  - cbn. unfold len. now rewrite (Forall2_length Hall).
  - intros i r Hr.
    destruct (Forall2_nth_error _ _ _ Hall i r Hr) as (o & Ho & ts & Hts & ->).
    exists ts. split; [exact Hts | exact Ho].
Qed.

Lemma construct_dch_payload_observations_witness :
  exists payload,
    construct_dch_payload fromisoformat_ref scenario_rows = Ok payload /\
    point_table payload =
      Some (PyDict [("0", PyStr ("evse:" ++ DCH_DATA_POOL_ID ++ ":" ++ DCH_POINT_ID))]) /\
    data_length payload = Some 3 /\
    forall i r,
      nth_error scenario_rows i = Some r ->
      exists ts,
        row_timestamp fromisoformat_ref r = Ok ts /\
        observation_at payload i =
          Some (PyDict [("t", PyStr (strftime_dch ts));
                        ("p", PyStr "0");
                        ("n", PyInt (calculate_rrp_value (rrp r)))]).
Proof.
  apply (construct_dch_payload_observations fromisoformat_ref scenario_rows).
  - discriminate.
  - reflexivity.
Defined.

(** The end-to-end scenario of the document: prices 450, 750 and 1500 at
    00:00, 00:05 and 00:10 give the levels 0, 1 and 2 under the point key
    "0". *)
Example construct_dch_payload_scenario :
  construct_dch_payload fromisoformat_ref scenario_rows =
  Ok (PyDict
        [("metadata", PyDict [("points", PyDict
            [("0", PyStr "evse:evse_kerbside_wholesale_price_drf:wholesale_price_drf")])]);
         ("data", PyList
            [PyDict [("t", PyStr "2024-01-01T00:00:00Z"); ("p", PyStr "0"); ("n", PyInt 0)];
             PyDict [("t", PyStr "2024-01-01T00:05:00Z"); ("p", PyStr "0"); ("n", PyInt 1)];
             PyDict [("t", PyStr "2024-01-01T00:10:00Z"); ("p", PyStr "0"); ("n", PyInt 2)]])]).
Proof. reflexivity. Qed.

(** C7: when some row of the list carries, as its timestamp, a string that
    [fromisoformat] rejects, the builder returns no envelope: it raises the
    exception [fromisoformat] raised on such a row. *)
Theorem construct_dch_payload_parse_error
  (fromisoformat : string -> result datetime) (price_signals : list PriceSignal)
  (r : PriceSignal) (text : string) (e : exn) :
  In r price_signals ->
  settlementdate r = NotDatetime text ->
  fromisoformat text = Raise e ->
  exists r' text' e',
    In r' price_signals /\
    settlementdate r' = NotDatetime text' /\
    fromisoformat text' = Raise e' /\
    construct_dch_payload fromisoformat price_signals = Raise e'.
Proof.
  intros Hin Hcol Hparse.
  assert (Hread : forallb (readable fromisoformat) price_signals = false).
  { destruct (forallb (readable fromisoformat) price_signals) eqn:Hall; [|reflexivity].
    rewrite forallb_forall in Hall. specialize (Hall r Hin).
    unfold readable, row_timestamp in Hall. now rewrite Hcol, Hparse in Hall. }
  destruct (add_observations_unreadable fromisoformat price_signals
              (PyDict [("0", PyStr composite_point_id)]) [] Hread)
    as (r' & e' & Hin' & Hr' & Hrun).
  unfold row_timestamp in Hr'.
  destruct (settlementdate r') as [d|text'] eqn:Hcol'; [discriminate|].
  exists r', text', e'. repeat split; try assumption.
  destruct price_signals; [contradiction | exact Hrun].
Qed.

Lemma construct_dch_payload_parse_error_witness :
  exists r' text' e',
    In r' (scenario_rows ++ [mk_PriceSignal (NotDatetime "01/01/2024 00:15") 80 "NSW1"]) /\
    settlementdate r' = NotDatetime text' /\
    fromisoformat_ref text' = Raise e' /\
    construct_dch_payload fromisoformat_ref
      (scenario_rows ++ [mk_PriceSignal (NotDatetime "01/01/2024 00:15") 80 "NSW1"]) =
      Raise e'.
Proof.
  apply (construct_dch_payload_parse_error fromisoformat_ref _
           (mk_PriceSignal (NotDatetime "01/01/2024 00:15") 80 "NSW1")
           "01/01/2024 00:15"
           (ValueError "Invalid isoformat string: '01/01/2024 00:15'")).
  - cbn. tauto.
  - reflexivity.
  - reflexivity.
Defined.




(** ** Chunking *)

Section Chunking.

Context {A : Type}.
Variable items : list A.
Variable step : Z.
Hypothesis step_positive : 0 < step.

Lemma len_nonneg {B : Type} (xs : list B) : 0 <= len xs.
Proof. unfold len. lia. Qed.

(** In the loop the lower bound is never negative, and the slice is the
    next [step] items from there, or what is left of the list. *)
Lemma py_slice_from i :
  0 <= i ->
  py_slice items i (i + step) =
  firstn (Z.to_nat step) (skipn (Z.to_nat i) items).
Proof.
  intros Hi. unfold py_slice, clamp_index.
  destruct (Z.ltb_spec i 0); [lia|].
  destruct (Z.ltb_spec (i + step) 0); [lia|].
  pose proof (len_nonneg items) as Hn. unfold len in *.
  destruct (Z_lt_le_dec i (Z.of_nat (List.length items))) as [Hin|Hout].
  - rewrite (Z.min_l i) by lia.
    destruct (Z_le_gt_dec (i + step) (Z.of_nat (List.length items))).
    + rewrite Z.min_l by lia. f_equal. lia.
    + rewrite Z.min_r by lia.
      rewrite !firstn_all2; try reflexivity; rewrite length_skipn; lia.
  - rewrite !Z.min_r by lia.
    rewrite !(skipn_all2 items) by lia. now rewrite !firstn_nil.
Qed.

Lemma batch_loop_map indices : forall batches,
  batch_loop items step indices batches =
  (batches ++ map (fun i => py_slice items i (i + step)) indices)%list.
Proof.
  induction indices as [|i rest IH]; intros batches; cbn.
  - now rewrite app_nil_r.
  - rewrite IH, <- app_assoc. reflexivity.
Qed.

Lemma range_up_nth stop fuel : forall i k x,
  nth_error (range_up fuel i stop step) k = Some x ->
  x = i + Z.of_nat k * step /\ x < stop.
Proof.
  induction fuel as [|fuel IH]; intros i k x Hx; cbn in Hx.
  - destruct k; discriminate.
  - destruct (Z.ltb_spec i stop); [|destruct k; discriminate].
    destruct k as [|k]; cbn in Hx.
    + injection Hx as <-. lia.
    + destruct (IH _ _ _ Hx). lia.
Qed.

Lemma range_up_length stop fuel : forall i,
  stop - i <= Z.of_nat fuel ->
  len (range_up fuel i stop step) =
  if i <? stop then (stop - i + step - 1) / step else 0.
Proof.
  induction fuel as [|fuel IH]; intros i Hfuel; cbn [range_up].
  - destruct (Z.ltb_spec i stop); [lia | reflexivity].
  - destruct (Z.ltb_spec i stop) as [Hlt|Hge]; [|reflexivity].
    unfold len in *. cbn [List.length]. rewrite Nat2Z.inj_succ, IH by lia.
    destruct (Z.ltb_spec (i + step) stop).
    + replace (stop - i + step - 1) with (stop - (i + step) + step - 1 + 1 * step)
        by lia.
      rewrite Z.div_add by lia. lia.
    + apply Z.div_unique with (r := stop - i - 1); lia.
Qed.

Lemma range_up_concat fuel : forall i,
  0 <= i -> len items - i <= Z.of_nat fuel ->
  List.concat (map (fun j => py_slice items j (j + step))
              (range_up fuel i (len items) step)) =
  skipn (Z.to_nat i) items.
Proof.
  induction fuel as [|fuel IH]; intros i Hi Hfuel; cbn [range_up].
  - cbn. symmetry. apply skipn_all2. unfold len in *. lia.
  - destruct (Z.ltb_spec i (len items)) as [Hlt|Hge].
    + cbn [map List.concat]. rewrite IH, py_slice_from by lia.
      replace (Z.to_nat (i + step)) with (Z.to_nat step + Z.to_nat i)%nat by lia.
      rewrite <- skipn_skipn. apply firstn_skipn.
    + cbn. symmetry. apply skipn_all2. unfold len in *. lia.
Qed.

(** What [batch_list] returns for a positive batch size. *)
Lemma batch_list_positive :
  exists batches,
    batch_list items step = Ok batches /\
    len batches = (len items + step - 1) / step /\
    List.concat batches = items /\
    (forall k batch,
        nth_error batches k = Some batch ->
        Z.of_nat k * step < len items /\
        batch = firstn (Z.to_nat step) (skipn (Z.to_nat (Z.of_nat k * step)) items) /\
        1 <= len batch <= step /\
        (Z.of_nat k + 1 < len batches -> len batch = step)).
Proof.
  pose proof (len_nonneg items) as Hn.
  set (indices := range_up (Z.to_nat (len items - 0)) 0 (len items) step).
  exists (map (fun i => py_slice items i (i + step)) indices).
  assert (Hlen : len indices = (len items + step - 1) / step).
  { unfold indices. rewrite range_up_length by lia.
    destruct (Z.ltb_spec 0 (len items)) as [Hpos|Hzero].
    - f_equal. lia.
    - replace (len items) with 0 by lia.
      symmetry. apply Z.div_small. lia. }
  split; [|split; [|split]].
  - unfold batch_list, py_range.
    destruct (Z.eqb_spec step 0); [lia|].
    destruct (Z.ltb_spec 0 step); [|lia].
    cbn [bind]. now rewrite batch_loop_map.
  - unfold len in *. now rewrite length_map.
  - unfold indices. rewrite range_up_concat by lia. reflexivity.
  - intros k batch Hk. rewrite nth_error_map in Hk.
    destruct (nth_error indices k) as [x|] eqn:Hx; [|discriminate].
    injection Hk as <-.
    destruct (range_up_nth _ _ _ _ _ Hx) as [-> Hin]. rewrite Z.add_0_l in *.
    split; [exact Hin|]. rewrite py_slice_from by lia.
    split; [reflexivity|].
    assert (Hsize : len (firstn (Z.to_nat step)
                           (skipn (Z.to_nat (Z.of_nat k * step)) items)) =
                    Z.min step (len items - Z.of_nat k * step)).
    { unfold len in *. rewrite length_firstn, length_skipn. lia. }
    rewrite Hsize. split; [lia|].
    intros Hnext. unfold len in Hnext at 1. rewrite length_map in Hnext.
    destruct (nth_error indices (S k)) as [y|] eqn:Hy.
    + destruct (range_up_nth _ _ _ _ _ Hy) as [-> Hy']. lia.
    + apply nth_error_None in Hy. lia.
Qed.

End Chunking.

(** C6: with chunk size 50, [batch_list] on a list of N items returns
    ceil(N/50) chunks, the least count whose fifties cover N; their
    concatenation in order is the list itself; the k-th chunk is the next
    fifty items from position 50k; no chunk is empty or longer than 50, and
    every chunk but the last has exactly 50 items. *)
Theorem batch_list_partitions {A : Type} (items : list A) :
  exists batches,
    batch_list items 50 = Ok batches /\
    len batches = (len items + 49) / 50 /\
    50 * (len batches - 1) < len items <= 50 * len batches /\
    List.concat batches = items /\
    (forall k batch,
        nth_error batches k = Some batch ->
        batch = firstn 50 (skipn (50 * k)%nat items) /\
        1 <= len batch <= 50 /\
        (Z.of_nat k + 1 < len batches -> len batch = 50)).
Proof.
  destruct (batch_list_positive items 50 ltac:(lia))
    as (batches & Hrun & Hlen & Hcat & Hnth).
  exists batches. split; [exact Hrun|].
  replace (len items + 50 - 1) with (len items + 49) in Hlen by lia.
  split; [exact Hlen|]. split; [|split; [exact Hcat|]].
  - rewrite Hlen. pose proof (Z.div_mod (len items + 49) 50 ltac:(lia)).
    pose proof (Z.mod_pos_bound (len items + 49) 50 ltac:(lia)). lia.
  - intros k batch Hk. destruct (Hnth k batch Hk) as (_ & Hb & Hsize & Hfull).
    split; [|split; [exact Hsize | exact Hfull]].
    rewrite Hb. f_equal. f_equal. lia.
Qed.

(** ** Traces *)

Lemma attempted_app tr1 tr2 :
  attempted (tr1 ++ tr2) = (attempted tr1 ++ attempted tr2)%list.
Proof.
  induction tr1 as [|ev tr1 IH]; [reflexivity|].
  destruct ev; cbn; now rewrite IH.
Qed.

Lemma outcomes_app tr1 tr2 :
  outcomes (tr1 ++ tr2) = (outcomes tr1 ++ outcomes tr2)%list.
Proof.
  induction tr1 as [|ev tr1 IH]; [reflexivity|].
  destruct ev; cbn; now rewrite IH.
Qed.

Lemma posted_app tr1 tr2 :
  posted (tr1 ++ tr2) = (posted tr1 ++ posted tr2)%list.
Proof.
  induction tr1 as [|ev tr1 IH]; [reflexivity|].
  destruct ev; cbn; now rewrite IH.
Qed.

Lemma reported_counters_app tr1 tr2 :
  reported_counters (tr1 ++ tr2) =
  match reported_counters tr2 with
  | Some later => Some later
  | None => reported_counters tr1
  end.
Proof.
  induction tr1 as [|ev tr1 IH]; cbn.
  - now destruct (reported_counters tr2).
  - destruct ev; try exact IH. cbn. rewrite IH.
    now destruct (reported_counters tr2), (reported_counters tr1).
Qed.

Lemma count_outcome_app b os1 os2 :
  count_outcome b (os1 ++ os2) = count_outcome b os1 + count_outcome b os2.
Proof.
  unfold count_outcome, len. rewrite filter_app, length_app. lia.
Qed.

Lemma numbers_from_cons start n :
  numbers_from start (S n) = start :: numbers_from (start + 1) n.
Proof.
  unfold numbers_from. cbn [seq map]. f_equal; [lia|].
  rewrite <- seq_shift, map_map. apply map_ext. intros k. lia.
Qed.

(** ** The batch job *)

Section BatchJob.

Variable fromisoformat : string -> result datetime.
Variable network : list pyval -> pyval -> http_outcome.
Variable get_all_price_signals : string -> result (list PriceSignal).

(** One turn of the loop: the counters move by the verdict of the batch and
    the loop goes on with the rest, whatever the verdict. *)
Lemma upload_batches_cons total batch_num batch rest successful failed tr :
  upload_batches fromisoformat network total ((batch_num, batch) :: rest)
    successful failed tr =
  let '(events, ok) :=
    batch_events fromisoformat network total batch_num batch (posted tr) in
  upload_batches fromisoformat network total rest
    (if ok then successful + 1 else successful)
    (if ok then failed else failed + 1)
    (tr ++ events)%list.
Proof.
  cbn [upload_batches]. unfold batch_events.
  unfold io_bind at 1. unfold emit at 1. unfold io_bind at 1.
  unfold try_except at 1. unfold io_bind at 1. unfold lift at 1.
  destruct (construct_dch_payload fromisoformat batch) as [payload|e].
  - unfold io_bind at 1. unfold upload_to_dch, try_except, io_bind, post_and_check.
    rewrite posted_app, app_nil_r.
    destruct (network (posted tr) payload) as [status_code reason text|detail].
    + destruct ((400 <=? status_code) && (status_code <? 600)); cbn;
        rewrite <- !app_assoc; reflexivity.
    + cbn. rewrite <- !app_assoc. reflexivity.
  - cbn. rewrite <- !app_assoc. reflexivity.
Qed.

Lemma batch_events_read total batch_num batch history :
  let '(events, ok) :=
    batch_events fromisoformat network total batch_num batch history in
  attempted events = [batch_num] /\
  outcomes events = [(batch_num, ok)] /\
  posted events = batch_posted fromisoformat batch /\
  reported_counters events = None /\
  ok = batch_ok fromisoformat network history batch.
Proof.
  unfold batch_events, batch_posted, batch_ok, accepted.
  destruct (construct_dch_payload fromisoformat batch) as [payload|e].
  - destruct (network history payload) as [status_code reason text|detail].
    + destruct ((400 <=? status_code) && (status_code <? 600)); repeat split.
    + repeat split.
  - repeat split.
Qed.

Lemma count_outcome_single batch_num ok b :
  count_outcome b [(batch_num, ok)] = if Bool.eqb ok b then 1 else 0.
Proof. unfold count_outcome. cbn. now destruct (Bool.eqb ok b). Qed.

Lemma count_outcome_total os :
  count_outcome true os + count_outcome false os = len os.
Proof.
  induction os as [|[n ok] os IH]; [reflexivity|].
  change ((n, ok) :: os) with ([(n, ok)] ++ os)%list.
  rewrite !count_outcome_app, !count_outcome_single.
  unfold len in *. rewrite length_app. cbn [List.length].
  destruct ok; cbn [Bool.eqb]; lia.
Qed.

(** The whole loop: it ends, having started every batch in order and having
    recorded for each the verdict that batch earns on its own; the counters
    grow by the number of verdicts of each kind. *)
Lemma upload_batches_run total batches :
  forall start successful failed tr,
  exists ext,
    upload_batches fromisoformat network total (enumerate start batches)
      successful failed tr =
      (Ok (successful + count_outcome true (outcomes ext),
           failed + count_outcome false (outcomes ext)),
       (tr ++ ext)%list) /\
    attempted ext = numbers_from start (List.length batches) /\
    outcomes ext = batch_verdicts fromisoformat network (posted tr) start batches /\
    posted ext = flat_map (batch_posted fromisoformat) batches /\
    reported_counters ext = None.
Proof.
  induction batches as [|batch rest IH]; intros start successful failed tr.
  - exists []. cbn. rewrite app_nil_r, !Z.add_0_r. repeat split.
  - cbn [enumerate]. rewrite upload_batches_cons.
    pose proof (batch_events_read total start batch (posted tr)) as Hread.
    destruct (batch_events fromisoformat network total start batch (posted tr))
      as [events ok].
    destruct Hread as (Hatt & Hout & Hpost & Hrep & Hok).
    destruct (IH (start + 1) (if ok then successful + 1 else successful)
                (if ok then failed else failed + 1) (tr ++ events)%list)
      as (ext & Hrun & Hatt' & Hout' & Hpost' & Hrep').
    exists (events ++ ext)%list.
    rewrite attempted_app, outcomes_app, posted_app, reported_counters_app.
    rewrite Hrun, Hatt, Hout, Hpost, Hrep, Hatt', Hout', Hpost', Hrep'.
    rewrite posted_app, Hpost, app_assoc.
    split; [|split; [|split; [|split; reflexivity]]].
    + rewrite !count_outcome_app, !count_outcome_single.
      destruct ok; cbn [Bool.eqb]; do 3 f_equal; lia.
    + cbn [List.length]. now rewrite numbers_from_cons.
    + cbn [batch_verdicts]. now rewrite <- Hok.
Qed.

Lemma batch_verdicts_numbers batches : forall history start,
  map fst (batch_verdicts fromisoformat network history start batches) =
  numbers_from start (List.length batches).
Proof.
  induction batches as [|batch rest IH]; intros history start; [reflexivity|].
  cbn [batch_verdicts map fst List.length]. now rewrite IH, numbers_from_cons.
Qed.

Lemma batch_verdicts_length batches : forall history start,
  len (batch_verdicts fromisoformat network history start batches) = len batches.
Proof.
  intros history start. unfold len.
  rewrite <- (length_map fst), batch_verdicts_numbers.
  unfold numbers_from. now rewrite length_map, length_seq.
Qed.

(** The verdict of batch [k] depends on the batches before it only through
    what the remote end has been sent. *)
Lemma batch_verdicts_nth batches : forall history start k batch,
  nth_error batches k = Some batch ->
  nth_error (batch_verdicts fromisoformat network history start batches) k =
  Some (start + Z.of_nat k,
        batch_ok fromisoformat network
          (history ++ flat_map (batch_posted fromisoformat) (firstn k batches))
          batch).
Proof.
  induction batches as [|b rest IH]; intros history start [|k] batch Hk;
    try discriminate.
  - injection Hk as <-. cbn. now rewrite app_nil_r, Z.add_0_r.
  - cbn [batch_verdicts nth_error firstn flat_map].
    rewrite (IH _ _ k batch Hk), app_assoc. do 2 f_equal. lia.
Qed.

(** A batch whose payload cannot be built leaves its exception in the log
    of the handler of the loop. *)
Lemma upload_batches_records_failure total batches :
  forall start successful failed tr k batch e,
    nth_error batches k = Some batch ->
    construct_dch_payload fromisoformat batch = Raise e ->
    In (ErrorFailed (start + Z.of_nat k) total e)
       (snd (upload_batches fromisoformat network total (enumerate start batches)
               successful failed tr)).
Proof.
  induction batches as [|b rest IH]; intros start successful failed tr [|k] batch e Hk He;
    try discriminate; cbn [enumerate]; rewrite upload_batches_cons.
  - injection Hk as ->. unfold batch_events. rewrite He.
    destruct (upload_batches_run total rest (start + 1) successful (failed + 1)
                (tr ++ [InfoProcessing start total (len batch);
                        ErrorFailed start total e])%list)
      as (ext & Hrun & _).
    rewrite Hrun. cbn [snd]. rewrite Z.add_0_r.
    apply in_or_app. left. apply in_or_app. right. right. left. reflexivity.
  - destruct (batch_events fromisoformat network total start b (posted tr))
      as [events ok].
    replace (start + Z.of_nat (S k)) with (start + 1 + Z.of_nat k) by lia.
    now apply IH with (batch := batch).
Qed.

(** A run on a non-empty table: the fetched rows are cut into batches, the
    loop runs over all of them from empty counters, the closing record
    reports the counters and the exit code is read off the failed one. *)
Lemma main_run price_signals :
  get_all_price_signals "NSW1" = Ok price_signals ->
  price_signals <> [] ->
  exists batches ext,
    batch_list price_signals BATCH_SIZE = Ok batches /\
    upload_batches fromisoformat network (len batches) (enumerate 1 batches) 0 0 [] =
      (Ok (count_outcome true (outcomes ext), count_outcome false (outcomes ext)),
       ext) /\
    main fromisoformat network get_all_price_signals [] =
      (Ok (if count_outcome false (outcomes ext) =? 0 then 0 else 1),
       (ext ++ [InfoCompleted (len price_signals)
                  (count_outcome true (outcomes ext))
                  (count_outcome false (outcomes ext))])%list) /\
    attempted ext = numbers_from 1 (List.length batches) /\
    outcomes ext = batch_verdicts fromisoformat network [] 1 batches /\
    posted ext = flat_map (batch_posted fromisoformat) batches /\
    reported_counters ext = None.
Proof.
  intros Hget Hne.
  destruct (batch_list_positive price_signals 50 ltac:(lia))
    as (batches & Hbatches & _).
  destruct (upload_batches_run (len batches) batches 1 0 0 [])
    as (ext & Hrun & Hatt & Hout & Hpost & Hrep).
  cbn [app] in Hrun. rewrite !Z.add_0_l in Hrun.
  exists batches, ext. split; [exact Hbatches|]. split; [exact Hrun|].
  split; [|now repeat split].
  unfold main, try_except. unfold io_bind at 1. unfold lift at 1.
  rewrite Hget. destruct price_signals as [|r rest]; [contradiction|].
  unfold io_bind at 1. unfold lift at 1. unfold BATCH_SIZE. rewrite Hbatches.
  unfold io_bind at 1. rewrite Hrun. reflexivity.
Qed.

Lemma main_run_empty :
  get_all_price_signals "NSW1" = Ok [] ->
  main fromisoformat network get_all_price_signals [] = (Ok 0, [WarnNoSignals]).
Proof.
  intros Hget. unfold main, try_except. unfold io_bind at 1. unfold lift at 1.
  now rewrite Hget.
Qed.

End BatchJob.

Lemma count_outcome_nonneg b os : 0 <= count_outcome b os.
Proof. unfold count_outcome. apply len_nonneg. Qed.

Lemma count_outcome_In n b os : In (n, b) os -> 1 <= count_outcome b os.
Proof.
  intros Hin. apply in_split in Hin as (os1 & os2 & ->).
  change ((n, b) :: os2) with ([(n, b)] ++ os2)%list.
  rewrite !count_outcome_app, count_outcome_single, Bool.eqb_reflx.
  pose proof (count_outcome_nonneg b os1). pose proof (count_outcome_nonneg b os2).
  lia.
Qed.

(** C1: the batch job starts every batch in order whatever happened to the
    earlier ones; each batch ends in exactly one of the two counters, by the
    verdict it earns on its own; the closing record reports the two
    counters, which add up to the number of batches; the exit code is 0
    exactly when no batch failed and 1 otherwise. With three batches of
    which only the second upload is refused, all three payloads are posted,
    the counters end at 2 and 1 and the exit code is 1. *)
Theorem main_isolates_failed_batches
  (fromisoformat : string -> result datetime)
  (network : list pyval -> pyval -> http_outcome)
  (get_all_price_signals : string -> result (list PriceSignal))
  (price_signals : list PriceSignal) :
  get_all_price_signals "NSW1" = Ok price_signals ->
  exists batches code tr,
    batch_list price_signals BATCH_SIZE = Ok batches /\
    main fromisoformat network get_all_price_signals [] = (Ok code, tr) /\
    attempted tr = numbers_from 1 (List.length batches) /\
    outcomes tr = batch_verdicts fromisoformat network [] 1 batches /\
    map fst (outcomes tr) = numbers_from 1 (List.length batches) /\
    count_outcome true (outcomes tr) + count_outcome false (outcomes tr) =
      len batches /\
    (price_signals <> [] ->
     reported_counters tr =
       Some (count_outcome true (outcomes tr), count_outcome false (outcomes tr))) /\
    (code = 0 <-> count_outcome false (outcomes tr) = 0) /\
    (code <> 0 -> code = 1) /\
    (forall b1 b2 b3 p1 p2 p3,
        batches = [b1; b2; b3] ->
        construct_dch_payload fromisoformat b1 = Ok p1 ->
        construct_dch_payload fromisoformat b2 = Ok p2 ->
        construct_dch_payload fromisoformat b3 = Ok p3 ->
        accepted (network [] p1) = true ->
        accepted (network [p1] p2) = false ->
        accepted (network [p1; p2] p3) = true ->
        attempted tr = [1; 2; 3] /\
        posted tr = [p1; p2; p3] /\
        outcomes tr = [(1, true); (2, false); (3, true)] /\
        reported_counters tr = Some (2, 1) /\
        code = 1).
Proof.
  intros Hget. destruct price_signals as [|r rest].
  - exists [], 0, [WarnNoSignals].
    split; [reflexivity|]. split; [now apply main_run_empty|].
    repeat split; try reflexivity; try congruence; try discriminate.
  - destruct (main_run fromisoformat network get_all_price_signals (r :: rest) Hget
                ltac:(discriminate))
      as (batches & ext & Hbatches & _ & Hmain & Hatt & Hout & Hpost & Hrep).
    set (closing := InfoCompleted (len (r :: rest))
                      (count_outcome true (outcomes ext))
                      (count_outcome false (outcomes ext))) in *.
    assert (Hatt' : attempted (ext ++ [closing]) = attempted ext)
      by (rewrite attempted_app; apply app_nil_r).
    assert (Hout' : outcomes (ext ++ [closing]) = outcomes ext)
      by (rewrite outcomes_app; apply app_nil_r).
    assert (Hpost' : posted (ext ++ [closing]) = posted ext)
      by (rewrite posted_app; apply app_nil_r).
    assert (Hrep' : reported_counters (ext ++ [closing]) =
                    Some (count_outcome true (outcomes ext),
                          count_outcome false (outcomes ext)))
      by (rewrite reported_counters_app; reflexivity).
    pose proof (count_outcome_nonneg false (outcomes ext)) as Hnonneg.
    exists batches,
      (if count_outcome false (outcomes ext) =? 0 then 0 else 1),
      (ext ++ [closing])%list.
    rewrite Hatt', Hout', Hrep'.
    split; [exact Hbatches|]. split; [exact Hmain|]. split; [exact Hatt|].
    split; [exact Hout|].
    split; [rewrite Hout; apply batch_verdicts_numbers|].
    split; [rewrite count_outcome_total, Hout; apply batch_verdicts_length|].
    split; [reflexivity|].
    split; [destruct (Z.eqb_spec (count_outcome false (outcomes ext)) 0); lia|].
    split; [destruct (Z.eqb_spec (count_outcome false (outcomes ext)) 0); lia|].
    intros b1 b2 b3 p1 p2 p3 -> H1 H2 H3 Ha1 Ha2 Ha3.
    assert (Hverdicts : outcomes ext = [(1, true); (2, false); (3, true)]).
    { rewrite Hout. cbn [batch_verdicts]. unfold batch_ok, batch_posted.
      rewrite H1, H2, H3. cbn [app]. now rewrite Ha1, Ha2, Ha3. }
    rewrite Hpost', Hpost, Hverdicts. unfold batch_posted. cbn [flat_map].
    rewrite H1, H2, H3. repeat split. exact Hatt.
Qed.

Lemma main_isolates_failed_batches_witness :
  exists tr,
    main fromisoformat_ref (network_failing_at 2) (fun _ => Ok (rows 101 750)) [] =
      (Ok 1, tr) /\
    attempted tr = [1; 2; 3] /\
    outcomes tr = [(1, true); (2, false); (3, true)] /\
    reported_counters tr = Some (2, 1).
Proof.
  destruct (main_isolates_failed_batches fromisoformat_ref (network_failing_at 2)
              (fun _ => Ok (rows 101 750)) (rows 101 750) eq_refl)
    as (batches & code & tr & Hbatches & Hmain & _ & _ & _ & _ & _ & _ & _ & Hscenario).
  vm_compute in Hbatches. injection Hbatches as <-.
  edestruct Hscenario as (Hatt & _ & Hout & Hrep & ->).
  - reflexivity.
  - vm_compute. reflexivity.
  - vm_compute. reflexivity.
  - vm_compute. reflexivity.
  - reflexivity.
  - reflexivity.
  - reflexivity.
  - exists tr. split; [exact Hmain|]. split; [exact Hatt|].
    split; [exact Hout | exact Hrep].
Defined.

(** C3, as the program has it: a timestamp that cannot be read while the
    envelope of a batch is built is caught by the handler of the loop like a
    refused upload. Nothing is posted for that batch, the batch is logged
    and counted as failed, every batch is still started, the closing record
    is written and the exit code is 1. *)
Theorem parse_failure_counts_as_failed_batch
  (fromisoformat : string -> result datetime)
  (network : list pyval -> pyval -> http_outcome)
  (get_all_price_signals : string -> result (list PriceSignal))
  (price_signals : list PriceSignal) (batches : list (list PriceSignal))
  (k : nat) (batch : list PriceSignal) (e : exn) :
  get_all_price_signals "NSW1" = Ok price_signals ->
  batch_list price_signals BATCH_SIZE = Ok batches ->
  nth_error batches k = Some batch ->
  construct_dch_payload fromisoformat batch = Raise e ->
  exists tr successful failed,
    main fromisoformat network get_all_price_signals [] = (Ok 1, tr) /\
    In (ErrorFailed (Z.of_nat k + 1) (len batches) e) tr /\
    nth_error (outcomes tr) k = Some (Z.of_nat k + 1, false) /\
    attempted tr = numbers_from 1 (List.length batches) /\
    posted tr = flat_map (batch_posted fromisoformat) batches /\
    batch_posted fromisoformat batch = [] /\
    reported_counters tr = Some (successful, failed) /\
    1 <= failed /\
    successful + failed = len batches.
Proof.
  intros Hget Hbatches Hk He.
  assert (Hne : price_signals <> []).
  { intros ->. vm_compute in Hbatches. injection Hbatches as <-.
    destruct k; discriminate. }
  destruct (main_run fromisoformat network get_all_price_signals price_signals Hget Hne)
    as (batches' & ext & Hbatches' & Hrun & Hmain & Hatt & Hout & Hpost & Hrep).
  rewrite Hbatches in Hbatches'. injection Hbatches' as <-.
  set (successful := count_outcome true (outcomes ext)) in *.
  set (failed := count_outcome false (outcomes ext)) in *.
  assert (Hverdict : nth_error (outcomes ext) k = Some (Z.of_nat k + 1, false)).
  { rewrite Hout, (batch_verdicts_nth fromisoformat network batches [] 1 k batch Hk).
    unfold batch_ok. rewrite He. do 2 f_equal. lia. }
  assert (Hfailed : 1 <= failed).
  { apply count_outcome_In with (n := Z.of_nat k + 1).
    apply (nth_error_In _ _ Hverdict). }
  exists (ext ++ [InfoCompleted (len price_signals) successful failed])%list,
    successful, failed.
  rewrite attempted_app, outcomes_app, posted_app, reported_counters_app.
  cbn [attempted outcomes posted reported_counters]. rewrite !app_nil_r.
  split.
  { rewrite Hmain. destruct (Z.eqb_spec failed 0); [lia | reflexivity]. }
  split.
  { apply in_or_app. left.
    pose proof (upload_batches_records_failure fromisoformat network
                  (len batches) batches 1 0 0 [] k batch e Hk He) as Hin.
    rewrite Hrun in Hin. cbn [snd] in Hin.
    now replace (Z.of_nat k + 1) with (1 + Z.of_nat k) by lia. }
  split; [exact Hverdict|]. split; [exact Hatt|]. split; [exact Hpost|].
  split; [unfold batch_posted; now rewrite He|].
  split; [reflexivity|]. split; [exact Hfailed|].
  unfold successful, failed. rewrite count_outcome_total, Hout.
  apply batch_verdicts_length.
Qed.

Lemma parse_failure_counts_as_failed_batch_witness :
  exists tr,
    main fromisoformat_ref network_ok (fun _ => Ok rows_with_bad_first) [] = (Ok 1, tr) /\
    outcomes tr = [(1, false); (2, true)] /\
    attempted tr = [1; 2] /\
    reported_counters tr = Some (1, 1).
Proof.
  destruct (parse_failure_counts_as_failed_batch fromisoformat_ref network_ok
              (fun _ => Ok rows_with_bad_first) rows_with_bad_first
              [firstn 50 rows_with_bad_first; skipn 50 rows_with_bad_first]
              0 (firstn 50 rows_with_bad_first)
              (ValueError "Invalid isoformat string: 'yesterday'")
              eq_refl eq_refl eq_refl eq_refl)
    as (tr & successful & failed & Hmain & _).
  exists tr. split; [exact Hmain|].
  assert (Htr : tr = snd (main fromisoformat_ref network_ok
                            (fun _ => Ok rows_with_bad_first) []))
    by now rewrite Hmain.
  rewrite Htr. vm_compute. repeat split.
Defined.

(** C3 as worded fails on fifty-one rows of which the first cannot be read:
    the first batch is counted as failed, the second batch is started and
    uploaded, and the handler around the whole run is never reached. *)
Lemma parse_failure_aborts_run_fails : ~ parse_failure_aborts_run.
Proof.
  intros H.
  destruct (H fromisoformat_ref network_ok (fun _ => Ok rows_with_bad_first)
              rows_with_bad_first
              [firstn 50 rows_with_bad_first; skipn 50 rows_with_bad_first]
              0%nat (firstn 50 rows_with_bad_first)
              (ValueError "Invalid isoformat string: 'yesterday'")
              1
              (snd (main fromisoformat_ref network_ok
                      (fun _ => Ok rows_with_bad_first) []))
              eq_refl eq_refl eq_refl eq_refl eq_refl)
    as (_ & Hcounted & _).
  apply Hcounted. vm_compute. left. reflexivity.
Qed.

(** ** The hourly job *)

(** C9: when the query for the last hour returns no row, the handler
    returns status 200 with a body that carries the message "No price
    signals found for the last hour"; it logs one warning and posts
    nothing. *)
Theorem lambda_handler_no_records
  (fromisoformat : string -> result datetime)
  (json_dumps : pyval -> string)
  (network : list pyval -> pyval -> http_outcome)
  (get_last_hour_price_signals : string -> result (list PriceSignal))
  (invocation context : pyval) (tr : list event) :
  get_last_hour_price_signals "NSW1" = Ok [] ->
  exists response tr',
    lambda_handler fromisoformat json_dumps network get_last_hour_price_signals
      invocation context tr = (Ok response, tr') /\
    response =
      PyDict [("statusCode", PyInt 200);
              ("body", PyStr (json_dumps (PyDict
                 [("message", PyStr "No price signals found for the last hour")])))] /\
    dict_get response "statusCode" = Some (PyInt 200) /\
    tr' = (tr ++ [WarnNoSignalsLastHour])%list /\
    posted tr' = posted tr.
Proof.
  intros Hget. eexists. eexists. split.
  - unfold lambda_handler, try_except. unfold io_bind at 1. unfold lift at 1.
    rewrite Hget. reflexivity.
  - repeat split. rewrite posted_app. apply app_nil_r.
Qed.

Lemma lambda_handler_no_records_witness :
  exists response tr',
    lambda_handler fromisoformat_ref json_dumps_ref network_ok (fun _ => Ok [])
      (PyDict []) (PyDict []) [] = (Ok response, tr') /\
    dict_get response "statusCode" = Some (PyInt 200) /\
    dict_get response "body" =
      Some (PyStr (json_dumps_ref (PyDict
        [("message", PyStr "No price signals found for the last hour")]))) /\
    posted tr' = [].
Proof.
  destruct (lambda_handler_no_records fromisoformat_ref json_dumps_ref network_ok
              (fun _ => Ok []) (PyDict []) (PyDict []) [] eq_refl)
    as (response & tr' & Hrun & -> & Hstatus & -> & Hposted).
  eexists. eexists. split; [exact Hrun|].
  split; [exact Hstatus|]. split; [reflexivity | exact Hposted].
Defined.

(** * Further properties *)

(** ** The configuration *)

Lemma environ_getitem_set environ key :
  is_set environ key = true ->
  exists value, environ key = Some value /\ environ_getitem environ key = Ok value.
Proof.
  unfold is_set, environ_getitem. destruct (environ key) as [v|]; [|discriminate].
  intros _. now exists v.
Qed.

Lemma environ_getitem_unset environ key :
  is_set environ key = false -> environ_getitem environ key = Raise (KeyError key).
Proof.
  unfold is_set, environ_getitem. now destruct (environ key).
Qed.

(** X18: importing [config.py] binds its names exactly when the six
    environment variables it reads are all set, an empty value counting as
    set. The six names then hold the values of the environment as they are
    and the three others the constants of the module. No exception other
    than the module's own leaves the import. *)
Theorem import_config_succeeds_iff_all_set (environ : string -> option string) :
  (forallb (is_set environ) required_variables = true <->
   exists c, import_config environ = Imported c) /\
  (forall c,
      import_config environ = Imported c ->
      environ "DCH_API_KEY" = Some (cfg_DCH_API_KEY c) /\
      environ "DB_HOST" = Some (cfg_DB_HOST c) /\
      environ "DB_NAME" = Some (cfg_DB_NAME c) /\
      environ "DB_PASSWORD" = Some (cfg_DB_PASSWORD c) /\
      environ "DB_PORT" = Some (cfg_DB_PORT c) /\
      environ "DB_USER" = Some (cfg_DB_USER c) /\
      cfg_DCH_UPLOAD_URL c = DCH_UPLOAD_URL /\
      cfg_DCH_DATA_POOL_ID c = DCH_DATA_POOL_ID /\
      cfg_DCH_POINT_ID c = DCH_POINT_ID) /\
  (forall e, import_config environ <> Uncaught e).
Proof.
  unfold import_config, read_environment, environ_getitem, required_variables, is_set.
  cbn [forallb].
  destruct (environ "DCH_API_KEY") as [v1|]; cbn [bind andb];
    [|split; [split; [discriminate | intros [c H]; discriminate] |
             split; discriminate]].
  destruct (environ "DB_HOST") as [v2|]; cbn [bind andb];
    [|split; [split; [discriminate | intros [c H]; discriminate] |
             split; discriminate]].
  destruct (environ "DB_NAME") as [v3|]; cbn [bind andb];
    [|split; [split; [discriminate | intros [c H]; discriminate] |
             split; discriminate]].
  destruct (environ "DB_PASSWORD") as [v4|]; cbn [bind andb];
    [|split; [split; [discriminate | intros [c H]; discriminate] |
             split; discriminate]].
  destruct (environ "DB_PORT") as [v5|]; cbn [bind andb];
    [|split; [split; [discriminate | intros [c H]; discriminate] |
             split; discriminate]].
  destruct (environ "DB_USER") as [v6|]; cbn [bind andb];
    [|split; [split; [discriminate | intros [c H]; discriminate] |
             split; discriminate]].
  split; [|split].
  - split; [eexists; reflexivity | reflexivity].
  - intros c H. injection H as <-. cbn. repeat split.
  - discriminate.
Qed.

(** X19: when a variable is missing, the import raises
    [MissingEnvironmentVariableError] with the message
    "Missing environment variable:" followed, without a space, by the first
    missing name in the order the module reads them. *)
Theorem import_config_names_first_missing
  (environ : string -> option string) (key : string) :
  find (fun k => negb (is_set environ k)) required_variables = Some key ->
  import_config environ =
    MissingEnvironmentVariableError ("Missing environment variable:" ++ key).
Proof.
  unfold import_config, read_environment, environ_getitem, required_variables, is_set.
  cbn [find].
  destruct (environ "DCH_API_KEY") as [v1|]; cbn [bind negb];
    [|intros H; injection H as <-; reflexivity].
  destruct (environ "DB_HOST") as [v2|]; cbn [bind negb];
    [|intros H; injection H as <-; reflexivity].
  destruct (environ "DB_NAME") as [v3|]; cbn [bind negb];
    [|intros H; injection H as <-; reflexivity].
  destruct (environ "DB_PASSWORD") as [v4|]; cbn [bind negb];
    [|intros H; injection H as <-; reflexivity].
  destruct (environ "DB_PORT") as [v5|]; cbn [bind negb];
    [|intros H; injection H as <-; reflexivity].
  destruct (environ "DB_USER") as [v6|]; cbn [bind negb];
    [|intros H; injection H as <-; reflexivity].
  discriminate.
Qed.

Lemma import_config_names_first_missing_witness :
  import_config
    (environ_of [("DCH_API_KEY", "k"); ("DB_HOST", "db.local"); ("DB_USER", "u")]) =
  MissingEnvironmentVariableError "Missing environment variable:DB_NAME".
Proof.
  apply (import_config_names_first_missing
           (environ_of [("DCH_API_KEY", "k"); ("DB_HOST", "db.local"); ("DB_USER", "u")])
           "DB_NAME").
  reflexivity.
Defined.

(** ** The uploader *)

Lemma upload_to_dch_run network payload tr :
  upload_to_dch network payload tr =
  (upload_result_of (network (posted tr) payload),
   (tr ++ [Post DCH_UPLOAD_URL payload])%list).
Proof.
  unfold upload_to_dch, try_except, io_bind, post_and_check, upload_result_of.
  destruct (network (posted tr) payload) as [status_code reason text|detail].
  - destruct ((400 <=? status_code) && (status_code <? 600)); reflexivity.
  - reflexivity.
Qed.

(** X1: [upload_to_dch] posts its payload to [DCH_UPLOAD_URL] once, whatever
    comes back. A response with a status from 400 to 599 raises [HTTPError],
    any other status is returned with the body as it came, no response at
    all raises [RequestException]; nothing else is ever raised. *)
Theorem upload_to_dch_posts_once
  (network : list pyval -> pyval -> http_outcome) (payload : pyval)
  (tr : list event) :
  exists outcome,
    upload_to_dch network payload tr =
      (outcome, (tr ++ [Post DCH_UPLOAD_URL payload])%list) /\
    (forall status_code reason text,
        network (posted tr) payload = Response status_code reason text ->
        (400 <= status_code < 600 ->
         outcome = Raise (HTTPError status_code reason)) /\
        (status_code < 400 \/ 600 <= status_code ->
         outcome = Ok (PyDict [("statusCode", PyInt status_code);
                               ("body", PyStr text)]))) /\
    (forall detail,
        network (posted tr) payload = ConnectionFailure detail ->
        outcome = Raise (RequestException detail)) /\
    (forall e, outcome = Raise e -> is_RequestException e = true).
Proof.
  exists (upload_result_of (network (posted tr) payload)).
  split; [apply upload_to_dch_run|]. unfold upload_result_of.
  split; [|split].
  - intros status_code reason text ->. split; intros H.
    + destruct (Z.leb_spec 400 status_code), (Z.ltb_spec status_code 600);
        try lia; reflexivity.
    + destruct (Z.leb_spec 400 status_code), (Z.ltb_spec status_code 600);
        try lia; reflexivity.
  - now intros detail ->.
  - intros e. destruct (network (posted tr) payload) as [c reason text|detail].
    + destruct ((400 <=? c) && (c <? 600)); intros H; [|discriminate].
      now injection H as <-.
    + intros H. now injection H as <-.
Qed.

(** ** The hourly job, all paths *)

Section HourlyJob.

Variable fromisoformat : string -> result datetime.
Variable json_dumps : pyval -> string.
Variable network : list pyval -> pyval -> http_outcome.
Variable get_last_hour_price_signals : string -> result (list PriceSignal).

Lemma lambda_handler_fetch_raises invocation context tr e :
  get_last_hour_price_signals "NSW1" = Raise e ->
  lambda_handler fromisoformat json_dumps network get_last_hour_price_signals
    invocation context tr =
  (Ok (failure_response json_dumps e), (tr ++ [ErrorProcessing e])%list).
Proof.
  intros Hget. unfold lambda_handler, try_except. unfold io_bind at 1.
  unfold lift at 1. now rewrite Hget.
Qed.

Lemma lambda_handler_rows invocation context tr price_signals :
  get_last_hour_price_signals "NSW1" = Ok price_signals ->
  price_signals <> [] ->
  lambda_handler fromisoformat json_dumps network get_last_hour_price_signals
    invocation context tr =
  match construct_dch_payload fromisoformat price_signals with
  | Raise e =>
      (Ok (failure_response json_dumps e), (tr ++ [ErrorProcessing e])%list)
  | Ok payload =>
      match upload_result_of (network (posted tr) payload) with
      | Ok upload_result =>
          (Ok (success_response json_dumps price_signals upload_result),
           (tr ++ [Post DCH_UPLOAD_URL payload])%list)
      | Raise e =>
          (Ok (failure_response json_dumps e),
           (tr ++ [Post DCH_UPLOAD_URL payload; ErrorProcessing e])%list)
      end
  end.
Proof.
  intros Hget Hne. unfold lambda_handler, try_except. unfold io_bind at 1.
  unfold lift at 1. rewrite Hget.
  destruct price_signals as [|r rest]; [contradiction|].
  unfold io_bind at 1. unfold lift at 1.
  destruct (construct_dch_payload fromisoformat (r :: rest)) as [payload|e];
    [|reflexivity].
  unfold io_bind at 1. rewrite upload_to_dch_run.
  destruct (upload_result_of (network (posted tr) payload)) as [upload_result|e].
  - reflexivity.
  - cbn. now rewrite <- app_assoc.
Qed.

Lemma lambda_handler_empty invocation context tr :
  get_last_hour_price_signals "NSW1" = Ok [] ->
  lambda_handler fromisoformat json_dumps network get_last_hour_price_signals
    invocation context tr =
  (Ok (PyDict [("statusCode", PyInt 200);
               ("body", PyStr (json_dumps (PyDict
                  [("message", PyStr "No price signals found for the last hour")])))]),
   (tr ++ [WarnNoSignalsLastHour])%list).
Proof.
  intros Hget. unfold lambda_handler, try_except. unfold io_bind at 1.
  unfold lift at 1. now rewrite Hget.
Qed.

End HourlyJob.

Lemma upload_result_of_accepted outcome :
  accepted outcome = true <-> exists r, upload_result_of outcome = Ok r.
Proof.
  unfold accepted, upload_result_of.
  destruct outcome as [c reason text|detail].
  - destruct ((400 <=? c) && (c <? 600)); cbn; split.
    + discriminate.
    + intros [r H]. discriminate.
    + intros _. eexists. reflexivity.
    + reflexivity.
  - split; [discriminate | intros [r H]; discriminate].
Qed.

Lemma upload_result_of_refused outcome :
  accepted outcome = false ->
  exists e, upload_result_of outcome = Raise e /\ is_RequestException e = true.
Proof.
  unfold accepted, upload_result_of.
  destruct outcome as [c reason text|detail].
  - destruct ((400 <=? c) && (c <? 600)); cbn; [|discriminate].
    intros _. eexists. split; reflexivity.
  - intros _. eexists. split; reflexivity.
Qed.

(** X2: [lambda_handler] never raises. Its response has status 200 or 500;
    it is 200 exactly when the query succeeded and either returned no row
    or the payload was built and the upload accepted. At most one payload
    is posted. *)
Theorem lambda_handler_always_responds
  (fromisoformat : string -> result datetime)
  (json_dumps : pyval -> string)
  (network : list pyval -> pyval -> http_outcome)
  (get_last_hour_price_signals : string -> result (list PriceSignal))
  (invocation context : pyval) (tr : list event) :
  exists response tr',
    lambda_handler fromisoformat json_dumps network get_last_hour_price_signals
      invocation context tr = (Ok response, tr') /\
    (dict_get response "statusCode" = Some (PyInt 200) \/
     dict_get response "statusCode" = Some (PyInt 500)) /\
    (dict_get response "statusCode" = Some (PyInt 200) <->
     exists price_signals,
       get_last_hour_price_signals "NSW1" = Ok price_signals /\
       (price_signals = [] \/
        exists payload,
          construct_dch_payload fromisoformat price_signals = Ok payload /\
          accepted (network (posted tr) payload) = true)) /\
    (posted tr' = posted tr \/ exists payload, posted tr' = (posted tr ++ [payload])%list).
Proof.
  destruct (get_last_hour_price_signals "NSW1") as [price_signals|e] eqn:Hget.
  - destruct price_signals as [|r rest].
    + eexists. eexists. split; [now apply lambda_handler_empty|].
      split; [left; reflexivity|]. split.
      * split; [|reflexivity]. intros _. exists []. split; [reflexivity | now left].
      * left. rewrite posted_app. apply app_nil_r.
    + rewrite (lambda_handler_rows fromisoformat json_dumps network
                 get_last_hour_price_signals invocation context tr (r :: rest) Hget)
        by discriminate.
      destruct (construct_dch_payload fromisoformat (r :: rest)) as [payload|e] eqn:Hp.
      * destruct (upload_result_of (network (posted tr) payload)) as [res|e] eqn:Hup.
        -- eexists. eexists. split; [reflexivity|].
           split; [left; reflexivity|]. split.
           ++ split; [|reflexivity]. intros _. exists (r :: rest).
              split; [reflexivity|]. right. exists payload. split; [exact Hp|].
              apply upload_result_of_accepted. now exists res.
           ++ right. exists payload. rewrite posted_app. reflexivity.
        -- eexists. eexists. split; [reflexivity|].
           split; [right; reflexivity|]. split.
           ++ split; [discriminate|].
              intros (rows & Hrows & [Hnil | (p & Hbuilt & Hacc)]).
              ** injection Hrows as <-. discriminate.
              ** injection Hrows as <-. rewrite Hp in Hbuilt. injection Hbuilt as <-.
                 apply upload_result_of_accepted in Hacc as [res Hres]. congruence.
           ++ right. exists payload. rewrite posted_app. reflexivity.
      * eexists. eexists. split; [reflexivity|].
        split; [right; reflexivity|]. split.
        -- split; [discriminate|].
           intros (rows & Hrows & [Hnil | (p & Hbuilt & _)]).
           ++ injection Hrows as <-. discriminate.
           ++ injection Hrows as <-. congruence.
        -- left. rewrite posted_app. apply app_nil_r.
  - eexists. eexists.
    split; [apply lambda_handler_fetch_raises; exact Hget|].
    split; [right; reflexivity|]. split.
    + split; [discriminate|]. intros (rows & Hrows & _). discriminate.
    + left. rewrite posted_app. apply app_nil_r.
Qed.

(** X3: when the query returns rows, the payload is built and the remote
    end answers with a status outside 400..599, the handler posts the one
    payload built from all the rows and returns status 200 with the number
    of rows and the status and body of the upload. *)
Theorem lambda_handler_uploads_all_rows_at_once
  (fromisoformat : string -> result datetime)
  (json_dumps : pyval -> string)
  (network : list pyval -> pyval -> http_outcome)
  (get_last_hour_price_signals : string -> result (list PriceSignal))
  (invocation context : pyval) (tr : list event)
  (price_signals : list PriceSignal) (payload : pyval)
  (status_code : Z) (reason text : string) :
  get_last_hour_price_signals "NSW1" = Ok price_signals ->
  price_signals <> [] ->
  construct_dch_payload fromisoformat price_signals = Ok payload ->
  network (posted tr) payload = Response status_code reason text ->
  status_code < 400 \/ 600 <= status_code ->
  lambda_handler fromisoformat json_dumps network get_last_hour_price_signals
    invocation context tr =
  (Ok (PyDict
         [("statusCode", PyInt 200);
          ("body", PyStr (json_dumps (PyDict
             [("message",
               PyStr "Successfully processed and uploaded price signals to DCH");
              ("price_signals_processed", PyInt (len price_signals));
              ("dch_response",
               PyDict [("statusCode", PyInt status_code);
                       ("body", PyStr text)])])))]),
   (tr ++ [Post DCH_UPLOAD_URL payload])%list).
Proof.
  intros Hget Hne Hbuilt Hnet Hstatus.
  rewrite (lambda_handler_rows fromisoformat json_dumps network
             get_last_hour_price_signals invocation context tr price_signals Hget Hne).
  rewrite Hbuilt, Hnet. unfold upload_result_of.
  destruct (Z.leb_spec 400 status_code), (Z.ltb_spec status_code 600);
    try lia; reflexivity.
Qed.

Lemma lambda_handler_uploads_all_rows_at_once_witness :
  exists payload,
    construct_dch_payload fromisoformat_ref scenario_rows = Ok payload /\
    lambda_handler fromisoformat_ref json_dumps_ref network_ok
      (fun _ => Ok scenario_rows) (PyDict []) (PyDict []) [] =
    (Ok (PyDict
           [("statusCode", PyInt 200);
            ("body", PyStr (json_dumps_ref (PyDict
               [("message",
                 PyStr "Successfully processed and uploaded price signals to DCH");
                ("price_signals_processed", PyInt 3);
                ("dch_response",
                 PyDict [("statusCode", PyInt 200); ("body", PyStr "{}")])])))]),
     [Post DCH_UPLOAD_URL payload]).
Proof.
  eexists. split; [reflexivity|].
  apply (lambda_handler_uploads_all_rows_at_once fromisoformat_ref json_dumps_ref
           network_ok (fun _ => Ok scenario_rows) (PyDict []) (PyDict []) []
           scenario_rows _ 200 "OK" "{}").
  - reflexivity.
  - discriminate.
  - reflexivity.
  - reflexivity.
  - lia.
Defined.

(** X4: when the query raises, or the payload cannot be built, the handler
    returns status 500 with [str(e)] of that exception under "error", logs
    it, and posts nothing. *)
Theorem lambda_handler_fails_before_upload
  (fromisoformat : string -> result datetime)
  (json_dumps : pyval -> string)
  (network : list pyval -> pyval -> http_outcome)
  (get_last_hour_price_signals : string -> result (list PriceSignal))
  (invocation context : pyval) (tr : list event) (e : exn) :
  get_last_hour_price_signals "NSW1" = Raise e \/
  (exists price_signals,
      get_last_hour_price_signals "NSW1" = Ok price_signals /\
      construct_dch_payload fromisoformat price_signals = Raise e) ->
  exists tr',
    lambda_handler fromisoformat json_dumps network get_last_hour_price_signals
      invocation context tr =
    (Ok (PyDict
           [("statusCode", PyInt 500);
            ("body", PyStr (json_dumps (PyDict
               [("error", PyStr (exn_str e));
                ("message", PyStr "Failed to process and upload price signals")])))]),
     tr') /\
    tr' = (tr ++ [ErrorProcessing e])%list /\
    posted tr' = posted tr.
Proof.
  intros [Hget | (price_signals & Hget & Hbuilt)].
  - eexists. split; [apply lambda_handler_fetch_raises; exact Hget|].
    split; [reflexivity|]. rewrite posted_app. apply app_nil_r.
  - assert (Hne : price_signals <> []) by (intros ->; discriminate).
    rewrite (lambda_handler_rows fromisoformat json_dumps network
               get_last_hour_price_signals invocation context tr price_signals Hget Hne).
    rewrite Hbuilt. eexists. split; [reflexivity|].
    split; [reflexivity|]. rewrite posted_app. apply app_nil_r.
Qed.

Lemma lambda_handler_fails_before_upload_witness :
  exists tr',
    lambda_handler fromisoformat_ref json_dumps_ref network_ok
      (fun _ => Ok rows_with_bad_first) (PyDict []) (PyDict []) [] =
    (Ok (PyDict
           [("statusCode", PyInt 500);
            ("body", PyStr (json_dumps_ref (PyDict
               [("error", PyStr "Invalid isoformat string: 'yesterday'");
                ("message", PyStr "Failed to process and upload price signals")])))]),
     tr') /\
    tr' = [ErrorProcessing (ValueError "Invalid isoformat string: 'yesterday'")] /\
    posted tr' = [].
Proof.
  apply (lambda_handler_fails_before_upload fromisoformat_ref json_dumps_ref network_ok
           (fun _ => Ok rows_with_bad_first) (PyDict []) (PyDict []) []
           (ValueError "Invalid isoformat string: 'yesterday'")).
  right. exists rows_with_bad_first. split; reflexivity.
Defined.

(** X5: when the upload is refused the handler has posted the payload
    once, does not try again, and returns status 500 with [str(e)] of the
    [RequestException] under "error". *)
Theorem lambda_handler_upload_refused
  (fromisoformat : string -> result datetime)
  (json_dumps : pyval -> string)
  (network : list pyval -> pyval -> http_outcome)
  (get_last_hour_price_signals : string -> result (list PriceSignal))
  (invocation context : pyval) (tr : list event)
  (price_signals : list PriceSignal) (payload : pyval) :
  get_last_hour_price_signals "NSW1" = Ok price_signals ->
  price_signals <> [] ->
  construct_dch_payload fromisoformat price_signals = Ok payload ->
  accepted (network (posted tr) payload) = false ->
  exists e,
    is_RequestException e = true /\
    lambda_handler fromisoformat json_dumps network get_last_hour_price_signals
      invocation context tr =
    (Ok (PyDict
           [("statusCode", PyInt 500);
            ("body", PyStr (json_dumps (PyDict
               [("error", PyStr (exn_str e));
                ("message", PyStr "Failed to process and upload price signals")])))]),
     (tr ++ [Post DCH_UPLOAD_URL payload; ErrorProcessing e])%list).
Proof.
  intros Hget Hne Hbuilt Hrefused.
  destruct (upload_result_of_refused _ Hrefused) as (e & He & Hclass).
  exists e. split; [exact Hclass|].
  rewrite (lambda_handler_rows fromisoformat json_dumps network
             get_last_hour_price_signals invocation context tr price_signals Hget Hne).
  now rewrite Hbuilt, He.
Qed.

Lemma lambda_handler_upload_refused_witness :
  exists e payload,
    is_RequestException e = true /\
    lambda_handler fromisoformat_ref json_dumps_ref (network_failing_at 1)
      (fun _ => Ok scenario_rows) (PyDict []) (PyDict []) [] =
    (Ok (PyDict
           [("statusCode", PyInt 500);
            ("body", PyStr (json_dumps_ref (PyDict
               [("error", PyStr (exn_str e));
                ("message", PyStr "Failed to process and upload price signals")])))]),
     [Post DCH_UPLOAD_URL payload; ErrorProcessing e]).
Proof.
  destruct (lambda_handler_upload_refused fromisoformat_ref json_dumps_ref
              (network_failing_at 1) (fun _ => Ok scenario_rows)
              (PyDict []) (PyDict []) [] scenario_rows _
              eq_refl ltac:(discriminate) eq_refl eq_refl)
    as (e & Hclass & Hrun).
  exists e. eexists. split; [exact Hclass | exact Hrun].
Defined.

(** ** The payload builder, further *)

Section PayloadBuilderFurther.

Variable fromisoformat : string -> result datetime.

Lemma add_observations_app rows1 : forall payload rows2,
  add_observations fromisoformat payload (rows1 ++ rows2) =
  (payload' <- add_observations fromisoformat payload rows1 ;;
   add_observations fromisoformat payload' rows2).
Proof.
  induction rows1 as [|r rest IH]; intros payload rows2; [reflexivity|].
  cbn [app add_observations].
  destruct (add_observation fromisoformat payload r) as [payload'|e]; cbn [bind];
    [apply IH | reflexivity].
Qed.

Lemma construct_dch_payload_nonempty rows :
  rows <> [] ->
  construct_dch_payload fromisoformat rows =
  add_observations fromisoformat
    (envelope (PyDict [("0", PyStr composite_point_id)]) []) rows.
Proof. destruct rows; [contradiction | reflexivity]. Qed.

Lemma observations_are_row_observations rows obs :
  Forall2 (fun r o => exists ts, row_timestamp fromisoformat r = Ok ts /\
                                 o = observation_of ts (rrp r)) rows obs ->
  map (row_observation fromisoformat) rows = map Some obs.
Proof.
  induction 1 as [|r o rows obs (ts & Hts & ->) _ IH]; [reflexivity|].
  cbn [map]. unfold row_observation at 1. now rewrite Hts, IH.
Qed.

Lemma map_Some_inj {B : Type} (xs ys : list B) :
  map Some xs = map Some ys -> xs = ys.
Proof.
  revert ys. induction xs as [|x xs IH]; intros [|y ys] H; try discriminate.
  - reflexivity.
  - cbn in H. injection H as -> H. now rewrite (IH ys H).
Qed.

(** Readable rows: the data of the envelope is the observation of each row,
    in order. *)
Lemma construct_dch_payload_data rows :
  forallb (readable fromisoformat) rows = true ->
  exists points obs,
    construct_dch_payload fromisoformat rows = Ok (envelope points obs) /\
    map (row_observation fromisoformat) rows = map Some obs /\
    (rows <> [] -> points = PyDict [("0", PyStr composite_point_id)]).
Proof.
  intros Hread.
  destruct (construct_dch_payload_readable fromisoformat rows Hread)
    as (points & obs & Hrun & Hpoints & Hall).
  exists points, obs. split; [exact Hrun|].
  split; [now apply observations_are_row_observations|].
  intros Hne. destruct rows; [contradiction | exact Hpoints].
Qed.

End PayloadBuilderFurther.

(** X10: the builder raises the exception of the first row it cannot
    read; the rows after it play no part. *)
Theorem construct_dch_payload_first_unreadable
  (fromisoformat : string -> result datetime)
  (before : list PriceSignal) (bad : PriceSignal) (after : list PriceSignal)
  (e : exn) :
  forallb (readable fromisoformat) before = true ->
  row_timestamp fromisoformat bad = Raise e ->
  construct_dch_payload fromisoformat (before ++ bad :: after) = Raise e.
Proof.
  intros Hread Hbad.
  rewrite construct_dch_payload_nonempty by (destruct before; discriminate).
  rewrite add_observations_app.
  destruct (add_observations_readable fromisoformat before
              (PyDict [("0", PyStr composite_point_id)]) [] Hread)
    as (obs & Hrun & _).
  rewrite Hrun. cbn [bind add_observations].
  now rewrite add_observation_envelope, Hbad.
Qed.

Lemma construct_dch_payload_first_unreadable_witness :
  construct_dch_payload fromisoformat_ref
    (scenario_rows ++
     mk_PriceSignal (NotDatetime "01/01/2024 00:15") 80 "NSW1" ::
     [mk_PriceSignal (NotDatetime "later") 90 "NSW1"]) =
  Raise (ValueError "Invalid isoformat string: '01/01/2024 00:15'").
Proof.
  apply (construct_dch_payload_first_unreadable fromisoformat_ref scenario_rows).
  - reflexivity.
  - reflexivity.
Defined.

(** X11: on readable rows the builder is compatible with concatenation:
    the data of the envelope of two lists put end to end is the data of the
    envelope of the first followed by the data of the envelope of the
    second, and for non-empty lists the three point tables are the same. *)
Theorem construct_dch_payload_app
  (fromisoformat : string -> result datetime)
  (rows1 rows2 : list PriceSignal) :
  forallb (readable fromisoformat) (rows1 ++ rows2) = true ->
  exists payload payload1 payload2,
    construct_dch_payload fromisoformat (rows1 ++ rows2) = Ok payload /\
    construct_dch_payload fromisoformat rows1 = Ok payload1 /\
    construct_dch_payload fromisoformat rows2 = Ok payload2 /\
    payload_data payload = (payload_data payload1 ++ payload_data payload2)%list /\
    (rows1 <> [] -> rows2 <> [] ->
     point_table payload = point_table payload1 /\
     point_table payload = point_table payload2).
Proof.
  intros Hread. pose proof Hread as Hboth.
  rewrite forallb_app in Hboth. apply andb_prop in Hboth as [Hread1 Hread2].
  destruct (construct_dch_payload_data fromisoformat _ Hread)
    as (points & obs & Hrun & Hobs & Hpoints).
  destruct (construct_dch_payload_data fromisoformat _ Hread1)
    as (points1 & obs1 & Hrun1 & Hobs1 & Hpoints1).
  destruct (construct_dch_payload_data fromisoformat _ Hread2)
    as (points2 & obs2 & Hrun2 & Hobs2 & Hpoints2).
  exists (envelope points obs), (envelope points1 obs1), (envelope points2 obs2).
  split; [exact Hrun|]. split; [exact Hrun1|]. split; [exact Hrun2|]. split.
  - change (obs = (obs1 ++ obs2)%list). apply map_Some_inj.
    now rewrite <- Hobs, map_app, Hobs1, Hobs2, map_app.
  - intros Hne1 Hne2.
    rewrite Hpoints, Hpoints1, Hpoints2; try assumption; [now split|].
    destruct rows1; [contradiction | discriminate].
Qed.

Lemma construct_dch_payload_app_witness :
  exists payload payload1 payload2,
    construct_dch_payload fromisoformat_ref (scenario_rows ++ rows 2 40) = Ok payload /\
    construct_dch_payload fromisoformat_ref scenario_rows = Ok payload1 /\
    construct_dch_payload fromisoformat_ref (rows 2 40) = Ok payload2 /\
    payload_data payload = (payload_data payload1 ++ payload_data payload2)%list.
Proof.
  destruct (construct_dch_payload_app fromisoformat_ref scenario_rows (rows 2 40) eq_refl)
    as (payload & payload1 & payload2 & H & H1 & H2 & Hdata & _).
  exists payload, payload1, payload2. repeat split; assumption.
Defined.

(** ** Chunking, further *)

(** X12: [batch_list] with batch size 0 raises the [ValueError] of
    [range]; with a negative batch size it returns no batch at all, whatever
    the list holds; on the empty list it returns no batch for every
    non-zero size. *)
Theorem batch_list_edge_sizes {A : Type} (items : list A) :
  batch_list items 0 = Raise (ValueError "range() arg 3 must not be zero") /\
  (forall batch_size, batch_size < 0 -> batch_list items batch_size = Ok []) /\
  (forall batch_size, batch_size <> 0 -> batch_list (@nil A) batch_size = Ok []).
Proof.
  split; [reflexivity|]. split.
  - intros batch_size Hneg. unfold batch_list, py_range.
    destruct (Z.eqb_spec batch_size 0); [lia|].
    destruct (Z.ltb_spec 0 batch_size); [lia|].
    replace (Z.to_nat (0 - len items)) with O
      by (pose proof (len_nonneg items); lia).
    reflexivity.
  - intros batch_size Hnz. unfold batch_list, py_range.
    destruct (Z.eqb_spec batch_size 0); [contradiction|].
    destruct (Z.ltb_spec 0 batch_size); reflexivity.
Qed.

(** X13: for every positive batch size [batch_list] returns the least
    number of batches that covers the list; the batches put end to end are
    the list; batch [k] is the slice that starts at [k * batch_size]; no
    batch is empty or longer than the batch size and all but the last are
    full. *)
Theorem batch_list_partitions_any_size {A : Type} (items : list A) (batch_size : Z) :
  0 < batch_size ->
  exists batches,
    batch_list items batch_size = Ok batches /\
    batch_size * (len batches - 1) < len items <= batch_size * len batches /\
    List.concat batches = items /\
    (forall k batch,
        nth_error batches k = Some batch ->
        batch = firstn (Z.to_nat batch_size)
                  (skipn (k * Z.to_nat batch_size)%nat items) /\
        1 <= len batch <= batch_size /\
        (Z.of_nat k + 1 < len batches -> len batch = batch_size)).
Proof.
  intros Hpos.
  destruct (batch_list_positive items batch_size Hpos)
    as (batches & Hrun & Hlen & Hcat & Hnth).
  exists batches. split; [exact Hrun|]. split; [|split; [exact Hcat|]].
  - rewrite Hlen.
    pose proof (Z.div_mod (len items + batch_size - 1) batch_size ltac:(lia)).
    pose proof (Z.mod_pos_bound (len items + batch_size - 1) batch_size Hpos).
    lia.
  - intros k batch Hk. destruct (Hnth k batch Hk) as (_ & Hb & Hsize & Hfull).
    split; [|split; [exact Hsize | exact Hfull]].
    rewrite Hb. do 2 f_equal. lia.
Qed.

Lemma batch_list_partitions_any_size_witness :
  exists batches,
    batch_list [1; 2; 3; 4; 5; 6; 7] 3 = Ok batches /\
    3 * (len batches - 1) < 7 <= 3 * len batches /\
    List.concat batches = [1; 2; 3; 4; 5; 6; 7].
Proof.
  destruct (batch_list_partitions_any_size [1; 2; 3; 4; 5; 6; 7] 3 ltac:(lia))
    as (batches & Hrun & Hcount & Hcat & _).
  exists batches. split; [exact Hrun|]. split; [exact Hcount | exact Hcat].
Defined.

Lemma batch_list_item_position {A : Type} (items : list A) (batch_size : Z)
  (i : nat) (x : A) :
  0 < batch_size ->
  nth_error items i = Some x ->
  exists batches batch,
    batch_list items batch_size = Ok batches /\
    nth_error batches (Z.to_nat (Z.of_nat i / batch_size)) = Some batch /\
    nth_error batch (Z.to_nat (Z.of_nat i mod batch_size)) = Some x.
Proof.
  intros Hpos Hx.
  destruct (batch_list_positive items batch_size Hpos)
    as (batches & Hrun & Hlen & _ & Hnth).
  assert (Hi : Z.of_nat i < len items).
  { unfold len. apply Nat2Z.inj_lt. apply nth_error_Some. congruence. }
  pose proof (Z.div_mod (Z.of_nat i) batch_size ltac:(lia)) as Hdm.
  pose proof (Z.mod_pos_bound (Z.of_nat i) batch_size Hpos) as Hmod.
  assert (Hq : 0 <= Z.of_nat i / batch_size) by (apply Z.div_pos; lia).
  set (q := Z.of_nat i / batch_size) in *.
  set (r := Z.of_nat i mod batch_size) in *.
  assert (Hk : Z.of_nat (Z.to_nat q) < len batches).
  { rewrite Hlen, Z2Nat.id by lia.
    apply Z.lt_le_trans with (q + 1); [lia|].
    apply Z.div_le_lower_bound; nia. }
  destruct (nth_error batches (Z.to_nat q)) as [batch|] eqn:Hbatch.
  - exists batches, batch. split; [exact Hrun|]. split; [exact Hbatch|].
    destruct (Hnth _ _ Hbatch) as (_ & -> & _).
    rewrite nth_error_firstn.
    destruct (Nat.ltb_spec (Z.to_nat r) (Z.to_nat batch_size)); [|lia].
    rewrite nth_error_skipn, <- Hx. f_equal. rewrite Z2Nat.id by lia. nia.
  - apply nth_error_None in Hbatch. unfold len in Hk. lia.
Qed.

(** X14: the item at position [i] of the list is at position
    [i mod batch_size] of batch [i // batch_size]. *)
Theorem batch_list_locates_items {A : Type} (items : list A) (batch_size : Z)
  (i : nat) (x : A) :
  0 < batch_size ->
  nth_error items i = Some x ->
  exists batches batch,
    batch_list items batch_size = Ok batches /\
    nth_error batches (Z.to_nat (Z.of_nat i / batch_size)) = Some batch /\
    nth_error batch (Z.to_nat (Z.of_nat i mod batch_size)) = Some x.
Proof. apply batch_list_item_position. Qed.

Lemma batch_list_locates_items_witness :
  exists batches batch,
    batch_list [10; 20; 30; 40; 50; 60; 70] 3 = Ok batches /\
    nth_error batches 1 = Some batch /\
    nth_error batch 2 = Some 60.
Proof.
  apply (batch_list_locates_items [10; 20; 30; 40; 50; 60; 70] 3 5 60).
  - lia.
  - reflexivity.
Defined.

Lemma batch_list_fits {A : Type} (items : list A) (batch_size : Z) :
  items <> [] ->
  len items <= batch_size ->
  batch_list items batch_size = Ok [items].
Proof.
  intros Hne Hfits.
  assert (Hlen : 0 < len items).
  { destruct items; [contradiction|]. unfold len. cbn [List.length]. lia. }
  destruct (batch_list_positive items batch_size ltac:(lia))
    as (batches & Hrun & Hcount & Hcat & _).
  rewrite Hrun. f_equal.
  assert (Hone : len batches = 1).
  { rewrite Hcount. symmetry.
    apply Z.div_unique with (r := len items - 1); lia. }
  destruct batches as [|b [|b' rest]]; unfold len in Hone; cbn in Hone; try lia.
  cbn in Hcat. rewrite app_nil_r in Hcat. now subst.
Qed.

(** X15: a non-empty list no longer than the batch size comes back as
    one batch, the list itself. *)
Theorem batch_list_single_batch {A : Type} (items : list A) (batch_size : Z) :
  items <> [] ->
  len items <= batch_size ->
  batch_list items batch_size = Ok [items].
Proof. apply batch_list_fits. Qed.

Lemma batch_list_single_batch_witness :
  batch_list scenario_rows 50 = Ok [scenario_rows].
Proof.
  apply (batch_list_single_batch scenario_rows 50).
  - discriminate.
  - vm_compute. discriminate.
Defined.

(** ** The batch job, further *)

Section BatchJobFurther.

Variable fromisoformat : string -> result datetime.
Variable network : list pyval -> pyval -> http_outcome.
Variable get_all_price_signals : string -> result (list PriceSignal).

Lemma main_fetch_raises e :
  get_all_price_signals "NSW1" = Raise e ->
  main fromisoformat network get_all_price_signals [] = (Ok 1, [ErrorBackfill e]).
Proof.
  intros Hget. unfold main, try_except. unfold io_bind at 1. unfold lift at 1.
  now rewrite Hget.
Qed.

Lemma batch_posted_short batches :
  len (flat_map (batch_posted fromisoformat) batches) <= len batches.
Proof.
  induction batches as [|b rest IH]; [cbn; lia|].
  cbn [flat_map]. unfold len in *. rewrite length_app. cbn [List.length].
  unfold batch_posted at 1.
  destruct (construct_dch_payload fromisoformat b); cbn [List.length]; lia.
Qed.

Lemma forallb_concat {B : Type} (f : B -> bool) (ls : list (list B)) :
  forallb f (List.concat ls) = forallb (forallb f) ls.
Proof.
  induction ls as [|l ls IH]; [reflexivity|].
  cbn [List.concat forallb]. now rewrite forallb_app, IH.
Qed.

(** Batches of readable rows: each is posted, and the data of the posted
    payloads, end to end, are the observations of the rows of the batches,
    end to end. *)
Lemma readable_batches_posted batches :
  forallb (forallb (readable fromisoformat)) batches = true ->
  exists payloads,
    flat_map (batch_posted fromisoformat) batches = payloads /\
    map (construct_dch_payload fromisoformat) batches = map Ok payloads /\
    map Some (flat_map payload_data payloads) =
      map (row_observation fromisoformat) (List.concat batches).
Proof.
  induction batches as [|b rest IH]; intros Hread.
  - exists []. repeat split.
  - cbn [forallb] in Hread. apply andb_prop in Hread as [Hb Hrest].
    destruct (IH Hrest) as (payloads & Hposted & Hbuilt & Hdata).
    destruct (construct_dch_payload_data fromisoformat b Hb)
      as (points & obs & Hrun & Hobs & _).
    exists (envelope points obs :: payloads).
    cbn [flat_map map List.concat]. unfold batch_posted at 1.
    rewrite Hrun, Hposted, Hbuilt. split; [reflexivity|]. split; [reflexivity|].
    rewrite !map_app, Hdata, Hobs. reflexivity.
Qed.

(** A remote end that accepts everything fails no batch that can be
    built. *)
Lemma batch_verdicts_all_accepted batches :
  (forall history payload, accepted (network history payload) = true) ->
  forall history start payloads,
    map (construct_dch_payload fromisoformat) batches = map Ok payloads ->
    count_outcome false (batch_verdicts fromisoformat network history start batches) = 0.
Proof.
  intros Hnet. induction batches as [|b rest IH]; intros history start payloads Hbuilt.
  - reflexivity.
  - destruct payloads as [|p payloads]; [discriminate|].
    cbn [map] in Hbuilt. injection Hbuilt as Hb Hrest.
    cbn [batch_verdicts].
    change ((start, batch_ok fromisoformat network history b) ::
            batch_verdicts fromisoformat network
              (history ++ batch_posted fromisoformat b) (start + 1) rest)
      with ([(start, batch_ok fromisoformat network history b)] ++
            batch_verdicts fromisoformat network
              (history ++ batch_posted fromisoformat b) (start + 1) rest)%list.
    rewrite count_outcome_app, count_outcome_single, (IH _ _ payloads Hrest).
    unfold batch_ok. now rewrite Hb, Hnet.
Qed.

End BatchJobFurther.

(** X6: [main] never raises and its exit code is 0 or 1. When the query
    raises, the exit code is 1 and the run consists of the one error
    record: no batch is started and nothing is posted. When the table is
    empty the exit code is 0 after one warning. *)
Theorem main_always_exits
  (fromisoformat : string -> result datetime)
  (network : list pyval -> pyval -> http_outcome)
  (get_all_price_signals : string -> result (list PriceSignal)) :
  exists code tr,
    main fromisoformat network get_all_price_signals [] = (Ok code, tr) /\
    (code = 0 \/ code = 1) /\
    (forall e,
        get_all_price_signals "NSW1" = Raise e ->
        code = 1 /\ tr = [ErrorBackfill e]) /\
    (get_all_price_signals "NSW1" = Ok [] ->
     code = 0 /\ tr = [WarnNoSignals]).
Proof.
  destruct (get_all_price_signals "NSW1") as [price_signals|e] eqn:Hget.
  - destruct price_signals as [|r rest].
    + exists 0, [WarnNoSignals].
      split; [now apply main_run_empty|]. split; [now left|].
      split; [discriminate | now split].
    + destruct (main_run fromisoformat network get_all_price_signals (r :: rest) Hget
                  ltac:(discriminate))
        as (batches & ext & _ & _ & Hmain & _).
      eexists. eexists. split; [exact Hmain|]. split.
      * destruct (count_outcome false (outcomes ext) =? 0); [now left | now right].
      * split; discriminate.
  - exists 1, [ErrorBackfill e].
    split; [now apply main_fetch_raises|]. split; [now right|].
    split; [|discriminate]. intros e' H. injection H as <-. now split.
Qed.

(** X8: the batch job posts the payload of every batch that can be built,
    once, in the order of the batches, and nothing else: a refused upload
    is not retried and no batch is skipped because an earlier one failed. *)
Theorem main_posts_each_batch_once
  (fromisoformat : string -> result datetime)
  (network : list pyval -> pyval -> http_outcome)
  (get_all_price_signals : string -> result (list PriceSignal))
  (price_signals : list PriceSignal) :
  get_all_price_signals "NSW1" = Ok price_signals ->
  exists code tr batches,
    main fromisoformat network get_all_price_signals [] = (Ok code, tr) /\
    batch_list price_signals BATCH_SIZE = Ok batches /\
    posted tr =
      flat_map (fun batch =>
                  match construct_dch_payload fromisoformat batch with
                  | Ok payload => [payload]
                  | Raise _ => []
                  end) batches /\
    len (posted tr) <= len batches.
Proof.
  intros Hget. destruct price_signals as [|r rest].
  - exists 0, [WarnNoSignals], [].
    split; [now apply main_run_empty|]. split; [reflexivity|].
    split; [reflexivity | cbn; lia].
  - destruct (main_run fromisoformat network get_all_price_signals (r :: rest) Hget
                ltac:(discriminate))
      as (batches & ext & Hbatches & _ & Hmain & _ & _ & Hpost & _).
    eexists. eexists. exists batches. split; [exact Hmain|].
    split; [exact Hbatches|].
    rewrite posted_app. cbn [posted]. rewrite app_nil_r, Hpost.
    split; [reflexivity | apply batch_posted_short].
Qed.

Lemma main_posts_each_batch_once_witness :
  exists code tr batches,
    main fromisoformat_ref (network_failing_at 1) (fun _ => Ok rows_with_bad_first) [] =
      (Ok code, tr) /\
    batch_list rows_with_bad_first BATCH_SIZE = Ok batches /\
    len (posted tr) <= len batches.
Proof.
  destruct (main_posts_each_batch_once fromisoformat_ref (network_failing_at 1)
              (fun _ => Ok rows_with_bad_first) rows_with_bad_first eq_refl)
    as (code & tr & batches & Hmain & Hbatches & _ & Hshort).
  exists code, tr, batches. split; [exact Hmain|]. split; [exact Hbatches | exact Hshort].
Defined.

(** X9: when every row is readable the batch job posts one payload per
    batch, ceil(N/50) in all, each the envelope of its batch, and the data
    of the posted payloads put end to end are the data of the envelope of
    the whole table: every row is uploaded once, in order. If the remote
    end accepts every upload the exit code is 0. *)
Theorem main_uploads_every_row_once
  (fromisoformat : string -> result datetime)
  (network : list pyval -> pyval -> http_outcome)
  (get_all_price_signals : string -> result (list PriceSignal))
  (price_signals : list PriceSignal) :
  get_all_price_signals "NSW1" = Ok price_signals ->
  forallb (readable fromisoformat) price_signals = true ->
  exists code tr batches payload,
    main fromisoformat network get_all_price_signals [] = (Ok code, tr) /\
    batch_list price_signals BATCH_SIZE = Ok batches /\
    map (construct_dch_payload fromisoformat) batches = map Ok (posted tr) /\
    len (posted tr) = (len price_signals + 49) / 50 /\
    construct_dch_payload fromisoformat price_signals = Ok payload /\
    flat_map payload_data (posted tr) = payload_data payload /\
    ((forall history p, accepted (network history p) = true) -> code = 0).
Proof.
  intros Hget Hread.
  destruct (construct_dch_payload_data fromisoformat price_signals Hread)
    as (points & obs & Hwhole & Hobs & _).
  destruct price_signals as [|r rest].
  - exists 0, [WarnNoSignals], [], (envelope points obs).
    split; [now apply main_run_empty|]. split; [reflexivity|].
    split; [reflexivity|]. split; [reflexivity|]. split; [exact Hwhole|].
    split; [|reflexivity].
    cbn in Hwhole. injection Hwhole as <- <-. reflexivity.
  - destruct (main_run fromisoformat network get_all_price_signals (r :: rest) Hget
                ltac:(discriminate))
      as (batches & ext & Hbatches & _ & Hmain & _ & Hout & Hpost & _).
    destruct (batch_list_positive (r :: rest) 50 ltac:(lia))
      as (batches' & Hbatches' & Hcount & Hcat & _).
    unfold BATCH_SIZE in Hbatches. rewrite Hbatches in Hbatches'.
    injection Hbatches' as <-.
    assert (Hall : forallb (forallb (readable fromisoformat)) batches = true)
      by now rewrite <- forallb_concat, Hcat.
    destruct (readable_batches_posted fromisoformat batches Hall)
      as (payloads & Hposted & Hbuilt & Hdata).
    eexists. eexists. exists batches, (envelope points obs).
    split; [exact Hmain|]. split; [exact Hbatches|].
    rewrite posted_app. cbn [posted]. rewrite app_nil_r, Hpost, Hposted.
    split; [exact Hbuilt|]. split.
    { replace (len payloads) with (len batches).
      - rewrite Hcount. f_equal. lia.
      - unfold len. f_equal.
        now rewrite <- (length_map Ok payloads), <- Hbuilt, length_map. }
    split; [exact Hwhole|]. split.
    + change (payload_data (envelope points obs)) with obs.
      apply map_Some_inj. now rewrite Hdata, Hcat, Hobs.
    + intros Hnet.
      rewrite Hout,
        (batch_verdicts_all_accepted fromisoformat network batches Hnet [] 1
           payloads Hbuilt).
      reflexivity.
Qed.

Lemma main_uploads_every_row_once_witness :
  exists tr payload,
    main fromisoformat_ref network_ok (fun _ => Ok (rows 101 750)) [] = (Ok 0, tr) /\
    len (posted tr) = 3 /\
    construct_dch_payload fromisoformat_ref (rows 101 750) = Ok payload /\
    flat_map payload_data (posted tr) = payload_data payload.
Proof.
  destruct (main_uploads_every_row_once fromisoformat_ref network_ok
              (fun _ => Ok (rows 101 750)) (rows 101 750) eq_refl eq_refl)
    as (code & tr & batches & payload & Hmain & _ & _ & Hcount & Hwhole & Hdata & Hcode).
  rewrite (Hcode (fun _ _ => eq_refl)) in Hmain.
  exists tr, payload. split; [exact Hmain|]. split; [exact Hcount|].
  split; [exact Hwhole | exact Hdata].
Defined.

(** X20: a row that cannot be read costs its whole batch. With such a row
    at position [i] of the table, batch [i // 50] raises while its envelope
    is built, the failure is logged under batch number [i // 50 + 1], every
    payload posted in the run belongs to another batch, and the exit code
    is 1. *)
Theorem main_drops_batch_of_unreadable_row
  (fromisoformat : string -> result datetime)
  (network : list pyval -> pyval -> http_outcome)
  (get_all_price_signals : string -> result (list PriceSignal))
  (price_signals : list PriceSignal) (i : nat) (r : PriceSignal) :
  get_all_price_signals "NSW1" = Ok price_signals ->
  nth_error price_signals i = Some r ->
  readable fromisoformat r = false ->
  exists tr batches batch e,
    main fromisoformat network get_all_price_signals [] = (Ok 1, tr) /\
    batch_list price_signals BATCH_SIZE = Ok batches /\
    nth_error batches (Z.to_nat (Z.of_nat i / 50)) = Some batch /\
    In r batch /\
    construct_dch_payload fromisoformat batch = Raise e /\
    In (ErrorFailed (Z.of_nat i / 50 + 1) (len batches) e) tr /\
    (forall payload,
        In payload (posted tr) ->
        exists other,
          In other batches /\ other <> batch /\
          construct_dch_payload fromisoformat other = Ok payload).
Proof.
  intros Hget Hi Hunread.
  assert (Hne : price_signals <> []) by (intros ->; destruct i; discriminate).
  destruct (main_run fromisoformat network get_all_price_signals price_signals Hget Hne)
    as (batches & ext & Hbatches & Hrun & Hmain & _ & Hout & Hpost & _).
  destruct (batch_list_item_position price_signals 50 i r ltac:(lia) Hi)
    as (batches' & batch & Hbatches' & Hbatch & Hr).
  unfold BATCH_SIZE in Hbatches. rewrite Hbatches in Hbatches'.
  injection Hbatches' as <-.
  assert (Hin : In r batch) by apply (nth_error_In _ _ Hr).
  assert (Hread : forallb (readable fromisoformat) batch = false).
  { destruct (forallb (readable fromisoformat) batch) eqn:Hall; [|reflexivity].
    rewrite forallb_forall in Hall. rewrite (Hall r Hin) in Hunread. discriminate. }
  destruct (add_observations_unreadable fromisoformat batch
              (PyDict [("0", PyStr composite_point_id)]) [] Hread)
    as (r' & e & _ & _ & Hraise).
  assert (Hbuilt : construct_dch_payload fromisoformat batch = Raise e).
  { destruct batch; [contradiction | exact Hraise]. }
  set (k := Z.to_nat (Z.of_nat i / 50)) in *.
  assert (Hk : Z.of_nat k = Z.of_nat i / 50).
  { unfold k. apply Z2Nat.id. apply Z.div_pos; lia. }
  assert (Hverdict : nth_error (outcomes ext) k = Some (Z.of_nat k + 1, false)).
  { rewrite Hout, (batch_verdicts_nth fromisoformat network batches [] 1 k batch Hbatch).
    unfold batch_ok. rewrite Hbuilt. do 2 f_equal. lia. }
  assert (Hfailed : 1 <= count_outcome false (outcomes ext)).
  { apply count_outcome_In with (n := Z.of_nat k + 1).
    apply (nth_error_In _ _ Hverdict). }
  eexists. exists batches, batch, e.
  split.
  { rewrite Hmain.
    destruct (Z.eqb_spec (count_outcome false (outcomes ext)) 0); [lia | reflexivity]. }
  split; [exact Hbatches|]. split; [exact Hbatch|]. split; [exact Hin|].
  split; [exact Hbuilt|]. split.
  - apply in_or_app. left.
    pose proof (upload_batches_records_failure fromisoformat network
                  (len batches) batches 1 0 0 [] k batch e Hbatch Hbuilt) as Hlog.
    rewrite Hrun in Hlog. cbn [snd] in Hlog.
    now replace (Z.of_nat i / 50 + 1) with (1 + Z.of_nat k) by lia.
  - intros payload Hposted.
    rewrite posted_app in Hposted. cbn [posted] in Hposted.
    rewrite app_nil_r, Hpost in Hposted.
    apply in_flat_map in Hposted as (other & Hother & Hpayload).
    exists other. split; [exact Hother|].
    unfold batch_posted in Hpayload.
    destruct (construct_dch_payload fromisoformat other) as [p|e'] eqn:Hp;
      [|contradiction].
    destruct Hpayload as [<-|[]]. split; [|reflexivity].
    intros ->. congruence.
Qed.

Lemma main_drops_batch_of_unreadable_row_witness :
  exists tr batches batch e,
    main fromisoformat_ref network_ok (fun _ => Ok rows_with_bad_first) [] = (Ok 1, tr) /\
    batch_list rows_with_bad_first BATCH_SIZE = Ok batches /\
    nth_error batches 0 = Some batch /\
    construct_dch_payload fromisoformat_ref batch = Raise e /\
    In (ErrorFailed 1 (len batches) e) tr.
Proof.
  destruct (main_drops_batch_of_unreadable_row fromisoformat_ref network_ok
              (fun _ => Ok rows_with_bad_first) rows_with_bad_first 0
              (mk_PriceSignal (NotDatetime "yesterday") 750 "NSW1")
              eq_refl eq_refl eq_refl)
    as (tr & batches & batch & e & Hmain & Hbatches & Hbatch & _ & Hbuilt & Hlog & _).
  exists tr, batches, batch, e.
  split; [exact Hmain|]. split; [exact Hbatches|]. split; [exact Hbatch|].
  split; [exact Hbuilt | exact Hlog].
Defined.

(** X7: on a non-empty table of at most 50 rows the batch job and the
    hourly job, given the same rows, post the same single payload. *)
Theorem small_table_same_payload_in_both_jobs
  (fromisoformat : string -> result datetime)
  (json_dumps : pyval -> string)
  (network : list pyval -> pyval -> http_outcome)
  (query : string -> result (list PriceSignal))
  (invocation context : pyval)
  (price_signals : list PriceSignal) (payload : pyval) :
  query "NSW1" = Ok price_signals ->
  price_signals <> [] ->
  len price_signals <= 50 ->
  construct_dch_payload fromisoformat price_signals = Ok payload ->
  exists code tr response tr',
    main fromisoformat network query [] = (Ok code, tr) /\
    lambda_handler fromisoformat json_dumps network query invocation context [] =
      (Ok response, tr') /\
    posted tr = [payload] /\
    posted tr' = [payload].
Proof.
  intros Hget Hne Hsmall Hbuilt.
  destruct (main_run fromisoformat network query price_signals Hget Hne)
    as (batches & ext & Hbatches & _ & Hmain & _ & _ & Hpost & _).
  unfold BATCH_SIZE in Hbatches.
  rewrite (batch_list_fits price_signals 50 Hne Hsmall) in Hbatches.
  injection Hbatches as <-.
  cbn [flat_map] in Hpost. unfold batch_posted in Hpost. rewrite Hbuilt in Hpost.
  rewrite (lambda_handler_rows fromisoformat json_dumps network query
             invocation context [] price_signals Hget Hne), Hbuilt.
  destruct (upload_result_of (network (posted []) payload)) as [res|e].
  - eexists. eexists. eexists. eexists.
    split; [exact Hmain|]. split; [reflexivity|].
    rewrite posted_app, Hpost. split; reflexivity.
  - eexists. eexists. eexists. eexists.
    split; [exact Hmain|]. split; [reflexivity|].
    rewrite posted_app, Hpost. split; reflexivity.
Qed.

Lemma small_table_same_payload_in_both_jobs_witness :
  exists code tr response tr' payload,
    main fromisoformat_ref network_ok (fun _ => Ok scenario_rows) [] = (Ok code, tr) /\
    lambda_handler fromisoformat_ref json_dumps_ref network_ok
      (fun _ => Ok scenario_rows) (PyDict []) (PyDict []) [] = (Ok response, tr') /\
    posted tr = [payload] /\
    posted tr' = [payload].
Proof.
  destruct (small_table_same_payload_in_both_jobs fromisoformat_ref json_dumps_ref
              network_ok (fun _ => Ok scenario_rows) (PyDict []) (PyDict [])
              scenario_rows _ eq_refl ltac:(discriminate)
              ltac:(vm_compute; discriminate) eq_refl)
    as (code & tr & response & tr' & Hmain & Hrun & Hposted & Hposted').
  exists code, tr, response, tr'. eexists.
  split; [exact Hmain|]. split; [exact Hrun|]. split; [exact Hposted | exact Hposted'].
Defined.

(** ** The classifier, further *)

Lemma compare_cont_Eq m n : Pos.compare_cont Eq m n = Pos.compare m n.
Proof. reflexivity. Qed.

Ltac order_cases :=
  repeat (cbn in *;
    match goal with
    | H : context [Z.compare ?a ?b] |- _ => destruct (Z.compare_spec a b)
    | |- context [Z.compare ?a ?b] => destruct (Z.compare_spec a b)
    | H : context [Pos.compare_cont Eq ?a ?b] |- _ =>
        change (Pos.compare_cont Eq a b) with (Pos.compare a b) in *;
        destruct (Pos.compare_spec a b)
    | |- context [Pos.compare_cont Eq ?a ?b] =>
        change (Pos.compare_cont Eq a b) with (Pos.compare a b) in *;
        destruct (Pos.compare_spec a b)
    end).

Lemma SFleb_SFltb_trans x y z :
  SFleb x y = true -> SFltb y z = true -> SFltb x z = true.
Proof.
  unfold SFleb, SFltb.
  destruct x as [s|s| |s m e], y as [t|t| |t n f], z as [u|u| |u o g]; cbn;
    try destruct s; try destruct t; try destruct u; cbn; try congruence;
    intros H1 H2; order_cases; cbn in *; try congruence; try lia.
Qed.

Lemma SFcompare_defined x y :
  x <> S754_nan -> y <> S754_nan -> SFcompare x y <> None.
Proof. destruct x, y; cbn; congruence. Qed.

Lemma SFltb_false_SFleb x y :
  x <> S754_nan -> y <> S754_nan -> SFltb x y = false -> SFleb y x = true.
Proof.
  intros Hx Hy. unfold SFleb, SFltb. rewrite (SFcompare_antisym x y).
  pose proof (SFcompare_defined x y Hx Hy).
  destruct (SFcompare x y) as [[]|]; cbn; congruence.
Qed.

Lemma is_nan_spec p : is_nan p = true <-> Prim2SF p = S754_nan.
Proof.
  unfold is_nan. rewrite eqb_spec. unfold SFeqb.
  destruct (Prim2SF p) as [s|s| |s m e]; cbn; try destruct s; cbn;
    rewrite ?Z.compare_refl, ?compare_cont_Eq, ?Pos.compare_refl; cbn;
    split; congruence.
Qed.

Lemma below_stays_below p q c :
  (p <=? q)%float = true -> (q <? c)%float = true -> (p <? c)%float = true.
Proof. rewrite leb_spec, !ltb_spec. apply SFleb_SFltb_trans. Qed.

Lemma not_below_is_at_least p c :
  is_nan p = false -> is_nan c = false ->
  (p <? c)%float = false -> (c <=? p)%float = true.
Proof.
  intros Hp Hc. rewrite ltb_spec, leb_spec. apply SFltb_false_SFleb.
  - intros H. apply is_nan_spec in H. congruence.
  - intros H. apply is_nan_spec in H. congruence.
Qed.

Lemma below_not_nan p c : (p <? c)%float = true -> is_nan p = false.
Proof.
  rewrite ltb_spec. intros H. destruct (is_nan p) eqn:Hn; [|reflexivity].
  apply is_nan_spec in Hn. rewrite Hn in H. discriminate.
Qed.

(** X16: the bands are exact. The level is 0 only below 500, 1 only from
    500 inclusive to 1000 exclusive, and 2 only from 1000 inclusive upwards
    or on NaN. *)
Theorem calculate_rrp_value_exact_bands (p : float) :
  (calculate_rrp_value p = 0 <-> (p <? 500)%float = true) /\
  (calculate_rrp_value p = 1 <->
     (500 <=? p)%float = true /\ (p <? 1000)%float = true) /\
  (calculate_rrp_value p = 2 <->
     (1000 <=? p)%float = true \/ is_nan p = true).
Proof.
  unfold calculate_rrp_value.
  destruct (p <? 500)%float eqn:H500.
  - assert (Hn := below_not_nan _ _ H500).
    split; [tauto|]. split; split; try discriminate.
    + intros [H _]. apply at_least_500_not_below in H. congruence.
    + intros [H|H]; [|congruence].
      apply at_least_1000_not_below_500 in H. congruence.
  - destruct (p <? 1000)%float eqn:H1000.
    + assert (Hn := below_not_nan _ _ H1000).
      split; [split; discriminate|]. split; split; try discriminate.
      * intros _. split; [|reflexivity].
        now apply not_below_is_at_least.
      * tauto.
      * intros [H|H]; [|congruence].
        apply at_least_1000_not_below in H. congruence.
    + split; [split; discriminate|]. split; split; try discriminate.
      * intros [_ H]. discriminate.
      * intros _. destruct (is_nan p) eqn:Hn; [now right|left].
        now apply not_below_is_at_least.
      * reflexivity.
Qed.

(** X17: the classifier is monotone: a price at most another gets a level
    at most the other's. *)
Theorem calculate_rrp_value_monotone (p q : float) :
  (p <=? q)%float = true -> calculate_rrp_value p <= calculate_rrp_value q.
Proof.
  intros Hle. unfold calculate_rrp_value.
  destruct (q <? 500)%float eqn:Hq500.
  - rewrite (below_stays_below p q 500 Hle Hq500). lia.
  - destruct (q <? 1000)%float eqn:Hq1000.
    + rewrite (below_stays_below p q 1000 Hle Hq1000).
      destruct (p <? 500)%float; lia.
    + destruct (p <? 500)%float; [lia|]. destruct (p <? 1000)%float; lia.
Qed.

Lemma calculate_rrp_value_monotone_witness :
  calculate_rrp_value 499.5 <= calculate_rrp_value 500 /\
  calculate_rrp_value (-30) <= calculate_rrp_value infinity.
Proof.
  split.
  - apply calculate_rrp_value_monotone. reflexivity.
  - apply calculate_rrp_value_monotone. reflexivity.
Defined.
